(** * Dashboard aggregator: the two server variants, embedded and verified

    The repository holds two versions of the same Express server:

    - [src/server.js], the JWT variant: the credential comes from the URL
      query or the [Authorization] header and is verified locally; three
      backends are configured (reminders, classquizzes, seminars);
    - [src/unnamed/part_000], the cookie variant: the credential comes from a
      cookie or the [Authorization] header and is verified by a call to the
      identity provider; one backend is configured (reminders).

    The handlers are [async] functions that suspend at each outbound HTTP
    call.  They are embedded as computations in a small monad that threads
    the log of upstream calls, the clock and the console, and that can throw;
    the network is an arbitrary oracle answering each call from the history
    of the calls made so far. *)

From Stdlib Require Import String Ascii List ZArith NArith Bool Lia.
Import ListNotations.
Local Open Scope string_scope.
Local Open Scope Z_scope.
Set Warnings "-register-all".

(** ** JSON values and the JavaScript operators used by the handlers *)

(** Values that [JSON.parse] can produce.  Numbers are integers here: no
    handler computes with them, they are only tested for truthiness and
    copied.  An object keeps its members in insertion order; a parsed object
    has no two members with the same key, and [lookup] below returns the
    first member with the key asked for. *)
Inductive JSON : Type :=
| JNull
| JBool (b : bool)
| JNum (n : Z)
| JStr (s : string)
| JArr (items : list JSON)
| JObj (members : list (string * JSON)).

(** A JavaScript value of the handlers: a JSON value or [undefined]. *)
Definition Value : Type := option JSON.
Definition undefined : Value := None.

Inductive Exn : Type :=
| TypeError      (* property read on null/undefined, call of a non-function *)
| FetchError     (* node-fetch rejects: the network call itself failed *)
| SyntaxError    (* response.json() rejects: the body is not JSON *)
| InvalidToken.  (* jwt.verify throws, or [throw new Error('Invalid token')] *)

Inductive Result (A : Type) : Type :=
| Ok (a : A)
| Throw (e : Exn).
Arguments Ok {A} a.
Arguments Throw {A} e.

Definition rbind {A B} (r : Result A) (k : A -> Result B) : Result B :=
  match r with
  | Ok a => k a
  | Throw e => Throw e
  end.

Fixpoint lookup (p : string) (members : list (string * JSON)) : Value :=
  match members with
  | [] => undefined
  | (k, v) :: rest => if String.eqb k p then Some v else lookup p rest
  end.

(** [x.p] for the member names the handlers read (none of them is a
    property of a string, number, boolean or array prototype). *)
Definition get (x : Value) (p : string) : Result Value :=
  match x with
  | None | Some JNull => Throw TypeError
  | Some (JObj members) => Ok (lookup p members)
  | Some _ => Ok undefined
  end.

(** [x?.p] *)
Definition opt_get (x : Value) (p : string) : Result Value :=
  match x with
  | None | Some JNull => Ok undefined
  | _ => get x p
  end.

(** Truthiness: [undefined], [null], [false], [0] and the empty string are
    falsy. *)
Definition truthy (x : Value) : bool :=
  match x with
  | None | Some JNull => false
  | Some (JBool b) => b
  | Some (JNum n) => negb (n =? 0)
  | Some (JStr s) => negb (String.eqb s EmptyString)
  | Some (JArr _) | Some (JObj _) => true
  end.

(** [x || d] where [d] is a literal. *)
Definition or_else (x : Value) (d : JSON) : JSON :=
  match x with
  | Some j => if truthy x then j else d
  | None => d
  end.

(** [x === s] where [s] is a string. *)
Definition strict_eq_string (x : Value) (s : string) : bool :=
  match x with
  | Some (JStr t) => String.eqb t s
  | _ => false
  end.

(** What the language runtime and the libraries provide, and the process
    environment. *)
Record Runtime : Type := {
  (** [process.env.NAME] *)
  env : string -> option string;
  (** [jwt.verify(token, secret)]: the decoded payload, or [None] when the
      library throws. *)
  jwt_verify : string -> string -> option JSON;
  (** [String.prototype.slice(0, n)], which counts UTF-16 code units. *)
  string_slice : string -> nat -> string
}.

(** [x?.slice(0, 5)]: arrays and strings have [slice]; on any other
    non-nullish value the member is not a function and the call throws. *)
Definition opt_slice5 (R : Runtime) (x : Value) : Result Value :=
  match x with
  | None | Some JNull => Ok undefined
  | Some (JArr items) => Ok (Some (JArr (firstn 5 items)))
  | Some (JStr s) => Ok (Some (JStr (string_slice R s 5)))
  | Some _ => Throw TypeError
  end.

(** [process.env.NAME || fallback] *)
Definition env_or (R : Runtime) (name fallback : string) : string :=
  match env R name with
  | Some v => if String.eqb v EmptyString then fallback else v
  | None => fallback
  end.

(** An object literal whose members may be [undefined], as [JSON.stringify]
    and [res.json] serialise it: undefined members are left out. *)
Fixpoint object_of (fields : list (string * Value)) : list (string * JSON) :=
  match fields with
  | [] => []
  | (k, Some v) :: rest => (k, v) :: object_of rest
  | (_, None) :: rest => object_of rest
  end.

(** ** Strings: template pieces, [replace] and [encodeURIComponent] *)

(** [s.replace(pat, rep)] with a string pattern: the first occurrence only. *)
Fixpoint replace_first (pat rep s : string) : string :=
  if String.prefix pat s
  then rep ++ substring (String.length pat) (String.length s - String.length pat) s
  else match s with
       | EmptyString => EmptyString
       | String c rest => String c (replace_first pat rep rest)
       end.

(** [s.startsWith(p)] *)
Definition startsWith (s p : string) : bool := String.prefix p s.

Definition hex_digit (n : N) : ascii :=
  ascii_of_N (if (n <? 10)%N then 48 + n else 55 + n)%N.

(** The characters [encodeURIComponent] leaves alone: letters, digits and
    [- _ . ! ~ * ' ( )]. *)
Definition uri_unreserved (c : ascii) : bool :=
  let n := N_of_ascii c in
  ((65 <=? n) && (n <=? 90) || (97 <=? n) && (n <=? 122) ||
   (48 <=? n) && (n <=? 57) ||
   (n =? 45) || (n =? 95) || (n =? 46) || (n =? 33) || (n =? 126) ||
   (n =? 42) || (n =? 39) || (n =? 40) || (n =? 41))%N.

(** [encodeURIComponent] on a string held as its UTF-8 bytes: every byte
    outside the unreserved set becomes [%XX]. *)
Fixpoint encodeURIComponent (s : string) : string :=
  match s with
  | EmptyString => EmptyString
  | String c rest =>
      if uri_unreserved c then String c (encodeURIComponent rest)
      else
        let n := N_of_ascii c in
        String "%" (String (hex_digit (n / 16)) (String (hex_digit (n mod 16))
                                                  (encodeURIComponent rest)))
  end.

(** A template hole [${x}] where [x] may be [undefined]. *)
Definition show (x : option string) : string :=
  match x with
  | Some s => s
  | None => "undefined"
  end.

(** ** HTTP: upstream calls, the incoming request, the reply *)

Record Request : Type := {
  target : string;
  method : string;
  headers : list (string * string);
  (** the request body; the handlers always send [JSON.stringify(...)], so
      it is kept as the JSON value that is serialised *)
  body : option JSON
}.

(** [fetch(url)] *)
Definition GET (u : string) : Request :=
  {| target := u; method := "GET"; headers := []; body := None |}.

Record Response : Type := {
  status : Z;
  (** [Some j] when the body parses as JSON, [None] when [json()] rejects *)
  payload : option JSON
}.

(** [response.ok] *)
Definition ok (r : Response) : bool := (200 <=? status r) && (status r <=? 299).

Inductive FetchOutcome : Type :=
| NetworkError
| Responded (r : Response).

(** The incoming request, as far as the server reads it. *)
Record Req : Type := {
  protocol : string;
  host : option string;              (* req.get('host') *)
  originalUrl : string;
  path : string;                     (* req.path, as the middleware sees it *)
  query : string -> option string;
  authorization : option string;     (* req.headers.authorization *)
  cookies : string -> option string;
  params : string -> string;
  req_body : Value
}.

Inductive Reply : Type :=
| SendJson (code : Z) (content : JSON)       (* res.status(code).json(content) *)
| SendRedirect (code : Z) (location : string). (* res.redirect(location) *)

(** [res.json(x)] and [res.redirect(u)] use the default statuses. *)
Definition res_json (content : JSON) : Reply := SendJson 200 content.
Definition res_redirect (location : string) : Reply := SendRedirect 302 location.

(** What a middleware does: it answers, or calls [next()] after attaching
    [req.user] and [req.token]. *)
Inductive Gate : Type :=
| Answer (r : Reply)
| Next (user : Value) (token : string).

(** ** The handler monad *)

Definition Call : Type := (Request * FetchOutcome)%type.

Record World : Type := {
  calls : list Call;       (* upstream calls made so far, oldest first *)
  clock : Z;               (* what [Date.now()] returns *)
  console : list string    (* lines written by [console.error] *)
}.

(** The network answers a call from the history of calls, and takes some
    time to do so. *)
Definition Network : Type := list Call -> Request -> FetchOutcome * N.

Definition M (A : Type) : Type := Network -> World -> Result A * World.

Definition ret {A} (a : A) : M A := fun _ w => (Ok a, w).

Definition bind {A B} (m : M A) (k : A -> M B) : M B :=
  fun net w =>
    match m net w with
    | (Ok a, w') => k a net w'
    | (Throw e, w') => (Throw e, w')
    end.

Definition throw {A} (e : Exn) : M A := fun _ w => (Throw e, w).

(** [try { m } catch (err) { h }] *)
Definition try_catch {A} (m : M A) (h : Exn -> M A) : M A :=
  fun net w =>
    match m net w with
    | (Ok a, w') => (Ok a, w')
    | (Throw e, w') => h e net w'
    end.

(** A synchronous expression that may throw. *)
Definition lift {A} (r : Result A) : M A := fun _ w => (r, w).

Notation "x <- m ;; k" := (bind m (fun x => k))
  (at level 61, m at next level, right associativity).
Notation "m ;;; k" := (bind m (fun _ => k))
  (at level 61, right associativity).

Definition Date_now : M Z := fun _ w => (Ok (clock w), w).

Definition console_error (line : string) : M unit :=
  fun _ w =>
    (Ok tt, {| calls := calls w; clock := clock w;
               console := console w ++ [line] |}).

(** [await fetch(...)]: the call is logged with its outcome and the clock
    moves on; a network failure rejects.  The [await import('node-fetch')]
    that precedes the calls of a handler is taken to succeed: the module is a
    dependency of the package. *)
Definition fetch (rq : Request) : M Response :=
  fun net w =>
    let (o, dt) := net (calls w) rq in
    let w' := {| calls := calls w ++ [(rq, o)];
                 clock := clock w + Z.of_N dt;
                 console := console w |} in
    match o with
    | NetworkError => (Throw FetchError, w')
    | Responded r => (Ok r, w')
    end.

(** [await response.json()] *)
Definition json (r : Response) : M JSON :=
  match payload r with
  | Some j => ret j
  | None => throw SyntaxError
  end.

Notation "x <~ r ;; k" := (rbind r (fun x => k))
  (at level 61, r at next level, right associativity).

(** ** What the two files share *)

(** An entry of the [APPS] registry. *)
Record App : Type := {
  name : string;
  url : string;
  apiSecret : option string;
  icon : string;
  color : string
}.

(** [APPS.reminders], the same in both files. *)
Definition reminders (R : Runtime) : App :=
  {| name := "Reminders";
     url := "https://reminders-app.fly.dev";
     apiSecret := Some (env_or R "REMINDERS_API_SECRET" "assistant-secret-key");
     icon := "✅";
     color := "#007AFF" |}.

(** [{ error: 'Failed to load' }] *)
Definition error_marker : JSON := JObj [("error", JStr "Failed to load")].

(** [str || other] on strings that may be [undefined]. *)
Definition str_or (a b : option string) : option string :=
  match a with
  | Some s => if String.eqb s EmptyString then b else a
  | None => b
  end.

(** [obj.key = v]: an existing member keeps its place, a new one goes last. *)
Fixpoint assign (key : string) (v : JSON) (members : list (string * JSON))
  : list (string * JSON) :=
  match members with
  | [] => [(key, v)]
  | (k, old) :: rest =>
      if String.eqb k key then (k, v) :: rest else (k, old) :: assign key v rest
  end.

(** The [overview] object of the [/api/overview] handler. *)
Record Overview : Type := {
  apps : list (string * JSON);
  timestamp : Z
}.

Definition set_app (overview : Overview) (key : string) (v : JSON) : Overview :=
  {| apps := assign key v (apps overview); timestamp := timestamp overview |}.

Definition overview_json (overview : Overview) : JSON :=
  JObj [("apps", JObj (apps overview)); ("timestamp", JNum (timestamp overview))].

(** [array.find(r => r.id === id)] *)
Fixpoint find_id (items : list JSON) (id : string) : Result Value :=
  match items with
  | [] => Ok undefined
  | r :: rest =>
      rid <~ get (Some r) "id" ;;
      if strict_eq_string rid id then Ok (Some r) else find_id rest id
  end.

(** [x?.find(r => r.id === id)]: only arrays have [find]. *)
Definition opt_find_id (x : Value) (id : string) : Result Value :=
  match x with
  | None | Some JNull => Ok undefined
  | Some (JArr items) => find_id items id
  | Some _ => Throw TypeError
  end.

(** A destructuring default: [{ p = d } = obj] takes [d] when [obj.p] is
    [undefined] (and only then). *)
Definition with_default (x : Value) (d : JSON) : JSON :=
  match x with
  | Some j => j
  | None => d
  end.

Module Reminders.

(** The object literal assigned to [overview.apps.reminders]; its members
    are evaluated in order, and any of them may throw. *)
Definition summary (R : Runtime) (remindersData statsData : JSON) : Result JSON :=
  count <~ get (Some remindersData) "count" ;;
  stats1 <~ get (Some statsData) "stats" ;;
  total <~ opt_get stats1 "total" ;;
  stats2 <~ get (Some statsData) "stats" ;;
  incomplete <~ opt_get stats2 "incomplete" ;;
  stats3 <~ get (Some statsData) "stats" ;;
  overdue <~ opt_get stats3 "overdue" ;;
  stats4 <~ get (Some statsData) "stats" ;;
  highPriority <~ opt_get stats4 "highPriority" ;;
  list <~ get (Some remindersData) "reminders" ;;
  top <~ opt_slice5 R list ;;
  Ok (JObj [("name", JStr "Reminders");
            ("icon", JStr "✅");
            ("color", JStr "#007AFF");
            ("todayCount", or_else count (JNum 0));
            ("total", or_else total (JNum 0));
            ("incomplete", or_else incomplete (JNum 0));
            ("overdue", or_else overdue (JNum 0));
            ("highPriority", or_else highPriority (JNum 0));
            ("items", or_else top (JArr []))]).

Definition today_url (app : App) : string :=
  url app ++ "/api/external/reminders?secret=" ++ show (apiSecret app) ++ "&today=true".
Definition stats_url (app : App) : string :=
  url app ++ "/api/external/stats?secret=" ++ show (apiSecret app).
Definition list_url (app : App) : string :=
  url app ++ "/api/external/reminders?secret=" ++ show (apiSecret app).
Definition create_url (app : App) : string := url app ++ "/api/external/reminder".
Definition bulk_url (app : App) : string := url app ++ "/api/external/bulk".

(** The body of the first [try] of the overview handler. *)
Definition attempt (R : Runtime) (app : App) (overview : Overview) : M Overview :=
  remindersRes <- fetch (GET (today_url app)) ;;
  remindersData <- json remindersRes ;;
  statsRes <- fetch (GET (stats_url app)) ;;
  statsData <- json statsRes ;;
  s <- lift (summary R remindersData statsData) ;;
  ret (set_app overview "reminders" s).

(** [try { ... } catch (err) { console.error(...); ... = { error } }] *)
Definition block (R : Runtime) (app : App) (overview : Overview) : M Overview :=
  try_catch (attempt R app overview)
    (fun _ =>
       console_error "Failed to fetch reminders:" ;;;
       ret (set_app overview "reminders" error_marker)).

Definition POST (u : string) (content : JSON) : Request :=
  {| target := u; method := "POST";
     headers := [("Content-Type", "application/json")];
     body := Some content |}.

(** [app.post('/api/reminders', ...)] *)
Definition create (app : App) (req : Req) : M Reply :=
  try_catch
    (title <- lift (get (req_body req) "title") ;;
     notes0 <- lift (get (req_body req) "notes") ;;
     let notes := with_default notes0 (JStr EmptyString) in
     priority0 <- lift (get (req_body req) "priority") ;;
     let priority := with_default priority0 (JStr "normal") in
     response <- fetch (POST (create_url app)
                          (JObj (object_of
                                   [("secret", option_map JStr (apiSecret app));
                                    ("title", title);
                                    ("notes", Some notes);
                                    ("priority", Some priority)]))) ;;
     data <- json response ;;
     ret (res_json data))
    (fun _ => ret (SendJson 500 (JObj [("error", JStr "Failed to create reminder")]))).

(** [reminder.completed ? 'uncomplete' : 'complete'] *)
Definition action_for (completed : Value) : string :=
  if truthy completed then "uncomplete" else "complete".

(** [app.post('/api/reminders/:id/complete', ...)] *)
Definition complete (app : App) (req : Req) : M Reply :=
  try_catch
    (let id := params req "id" in
     getRes <- fetch (GET (list_url app)) ;;
     data <- json getRes ;;
     list <- lift (get (Some data) "reminders") ;;
     reminder <- lift (opt_find_id list id) ;;
     if negb (truthy reminder)
     then ret (SendJson 404 (JObj [("error", JStr "Reminder not found")]))
     else
       completed <- lift (get reminder "completed") ;;
       response <- fetch (POST (bulk_url app)
                            (JObj (object_of
                                     [("secret", option_map JStr (apiSecret app));
                                      ("action", Some (JStr (action_for completed)));
                                      ("ids", Some (JArr [JStr id]))]))) ;;
       result <- json response ;;
       ret (res_json result))
    (fun _ => ret (SendJson 500 (JObj [("error", JStr "Failed to update reminder")]))).

End Reminders.

(** ** [src/server.js]: the JWT variant *)

Module Jwt.

Definition JWT_SECRET (R : Runtime) : string :=
  env_or R "JWT_SECRET" "your-secret-key-change-in-production".
Definition AUTH_SERVICE : string := "https://inacio-auth.fly.dev".

Definition classquizzes : App :=
  {| name := "ClassQuizzes";
     url := "https://classquizzes.fly.dev";
     apiSecret := None;
     icon := "📝";
     color := "#5856D6" |}.

Definition seminars (R : Runtime) : App :=
  {| name := "Seminars";
     url := "https://seminars-app.fly.dev";
     apiSecret := Some (env_or R "SEMINARS_API_SECRET"
                          "seminars-api-secret-for-dashboard");
     icon := "🎓";
     color := "#FF9500" |}.

Definition APPS (R : Runtime) : list (string * App) :=
  [("reminders", reminders R); ("classquizzes", classquizzes);
   ("seminars", seminars R)].

Definition login_redirect (currentUrl : string) : Reply :=
  res_redirect (AUTH_SERVICE ++ "/login?returnTo=" ++ encodeURIComponent currentUrl).

(** [req.query.token || req.headers.authorization?.replace('Bearer ', '')] *)
Definition token (req : Req) : option string :=
  str_or (query req "token")
         (option_map (replace_first "Bearer " EmptyString) (authorization req)).

(** [checkAuth], mounted on [/api].  [!token] holds when the token is
    [undefined] or the empty string. *)
Definition checkAuth (R : Runtime) (req : Req) : M Gate :=
  match token req with
  | None =>
      ret (Answer (login_redirect
                     (protocol req ++ "://" ++ show (host req) ++ originalUrl req)))
  | Some t =>
      if String.eqb t EmptyString
      then ret (Answer (login_redirect
                          (protocol req ++ "://" ++ show (host req) ++ originalUrl req)))
      else
        try_catch
          (decoded <- match jwt_verify R t (JWT_SECRET R) with
                      | Some payload => ret payload
                      | None => throw InvalidToken
                      end ;;
           ret (Next (Some decoded) t))
          (fun _ =>
             ret (Answer (login_redirect
                            (protocol req ++ "://" ++ show (host req) ++ path req))))
  end.

(** The object assigned to [overview.apps.classquizzes]. *)
Definition classquizzes_summary : JSON :=
  JObj [("name", JStr "ClassQuizzes");
        ("icon", JStr "📝");
        ("color", JStr "#5856D6");
        ("url", JStr (url classquizzes ++ "/admin"))].

(** The second [try] of the overview handler: nothing in it can throw. *)
Definition classquizzes_block (overview : Overview) : M Overview :=
  try_catch (ret (set_app overview "classquizzes" classquizzes_summary))
    (fun _ =>
       console_error "Failed to fetch quizzes:" ;;;
       ret (set_app overview "classquizzes" error_marker)).

Definition seminars_stats_url (app : App) : string :=
  url app ++ "/api/external/stats?secret=" ++ show (apiSecret app).
Definition seminars_upcoming_url (app : App) : string :=
  url app ++ "/api/external/upcoming?secret=" ++ show (apiSecret app) ++ "&limit=5".

Definition seminars_summary (R : Runtime) (seminarsStats seminarsUpcoming : JSON)
  : Result JSON :=
  upcoming <~ get (Some seminarsStats) "upcoming_seminars" ;;
  speakers <~ get (Some seminarsStats) "total_speakers" ;;
  pending <~ get (Some seminarsStats) "pending_tasks" ;;
  list <~ get (Some seminarsUpcoming) "seminars" ;;
  top <~ opt_slice5 R list ;;
  Ok (JObj [("name", JStr "Seminars");
            ("icon", JStr "🎓");
            ("color", JStr "#FF9500");
            ("upcomingCount", or_else upcoming (JNum 0));
            ("totalSpeakers", or_else speakers (JNum 0));
            ("pendingTasks", or_else pending (JNum 0));
            ("items", or_else top (JArr []))]).

Definition seminars_attempt (R : Runtime) (overview : Overview) : M Overview :=
  seminarsStatsRes <- fetch (GET (seminars_stats_url (seminars R))) ;;
  seminarsStats <- json seminarsStatsRes ;;
  seminarsUpcomingRes <- fetch (GET (seminars_upcoming_url (seminars R))) ;;
  seminarsUpcoming <- json seminarsUpcomingRes ;;
  s <- lift (seminars_summary R seminarsStats seminarsUpcoming) ;;
  ret (set_app overview "seminars" s).

Definition seminars_block (R : Runtime) (overview : Overview) : M Overview :=
  try_catch (seminars_attempt R overview)
    (fun _ =>
       console_error "Failed to fetch seminars:" ;;;
       ret (set_app overview "seminars" error_marker)).

(** [app.get('/api/overview', ...)] *)
Definition overview (R : Runtime) : M Reply :=
  now <- Date_now ;;
  let overview0 := {| apps := []; timestamp := now |} in
  overview1 <- Reminders.block R (reminders R) overview0 ;;
  overview2 <- classquizzes_block overview1 ;;
  overview3 <- seminars_block R overview2 ;;
  ret (res_json (overview_json overview3)).

Definition create (R : Runtime) : Req -> M Reply := Reminders.create (reminders R).
Definition complete (R : Runtime) : Req -> M Reply := Reminders.complete (reminders R).

End Jwt.

(** ** [src/unnamed/part_000]: the cookie variant *)

Module Cookie.

Definition AUTH_SERVICE (R : Runtime) : string :=
  env_or R "AUTH_SERVICE" "https://inacio-auth.fly.dev".
Definition COOKIE_NAME : string := "auth_session".

Definition APPS (R : Runtime) : list (string * App) := [("reminders", reminders R)].

Definition dashboard_url (req : Req) : string :=
  "https://inacio-dashboard.fly.dev" ++ originalUrl req.

Definition verify_request (R : Runtime) (token : string) : Request :=
  {| target := AUTH_SERVICE R ++ "/api/verify";
     method := "GET";
     headers := [("Authorization", "Bearer " ++ token)];
     body := None |}.

Definition not_authenticated (loginUrl : string) : Reply :=
  SendJson 401 (JObj [("error", JStr "Not authenticated");
                      ("loginUrl", JStr loginUrl)]).

(** The branch taken when no credential is present. *)
Definition no_credential (R : Runtime) (req : Req) : Reply :=
  if startsWith (path req) "/api/"
  then not_authenticated
         (AUTH_SERVICE R ++ "/login?returnTo=" ++ encodeURIComponent (dashboard_url req))
  else res_redirect
         (AUTH_SERVICE R ++ "/login?returnTo=" ++ encodeURIComponent (dashboard_url req)).

(** [req.cookies[COOKIE_NAME] || req.headers.authorization?.replace('Bearer ', '')] *)
Definition token (req : Req) : option string :=
  str_or (cookies req COOKIE_NAME)
         (option_map (replace_first "Bearer " EmptyString) (authorization req)).

(** [requireAuth], mounted on [/api] and on [/]. *)
Definition requireAuth (R : Runtime) (req : Req) : M Gate :=
  match token req with
  | None => ret (Answer (no_credential R req))
  | Some t =>
      if String.eqb t EmptyString
      then ret (Answer (no_credential R req))
      else
        try_catch
          (response <- fetch (verify_request R t) ;;
           (if negb (ok response) then throw InvalidToken else ret tt) ;;;
           data <- json response ;;
           user <- lift (get (Some data) "user") ;;
           ret (Next user t))
          (fun _ =>
             if startsWith (path req) "/api/"
             then ret (Answer (not_authenticated (AUTH_SERVICE R ++ "/login")))
             else ret (Answer (res_redirect (AUTH_SERVICE R ++ "/login"))))
  end.

(** [app.get('/api/overview', ...)] *)
Definition overview (R : Runtime) : M Reply :=
  now <- Date_now ;;
  let overview0 := {| apps := []; timestamp := now |} in
  overview1 <- Reminders.block R (reminders R) overview0 ;;
  ret (res_json (overview_json overview1)).

(** [if (x) url += ...] for a query parameter that may be missing. *)
Definition when_truthy (x : option string) (suffix : string) : string :=
  match x with
  | Some s => if String.eqb s EmptyString then EmptyString else suffix
  | None => EmptyString
  end.

Definition list_url (R : Runtime) (req : Req) : string :=
  let folder := query req "folder" in
  let completed := query req "completed" in
  let today := query req "today" in
  let tag := query req "tag" in
  let search := query req "search" in
  Reminders.list_url (reminders R)
    ++ when_truthy folder ("&folder=" ++ encodeURIComponent (show folder))
    ++ match completed with
       | Some c => "&completed=" ++ c
       | None => EmptyString
       end
    ++ when_truthy today "&today=true"
    ++ when_truthy tag ("&tag=" ++ encodeURIComponent (show tag))
    ++ when_truthy search ("&search=" ++ encodeURIComponent (show search)).

(** [app.get('/api/reminders', ...)] *)
Definition list_reminders (R : Runtime) (req : Req) : M Reply :=
  try_catch
    (response <- fetch (GET (list_url R req)) ;;
     data <- json response ;;
     ret (res_json data))
    (fun _ => ret (SendJson 500 (JObj [("error", JStr "Failed to fetch reminders")]))).

Definition create (R : Runtime) : Req -> M Reply := Reminders.create (reminders R).
Definition complete (R : Runtime) : Req -> M Reply := Reminders.complete (reminders R).

End Cookie.

(** Running a handler from a fresh request: no upstream call made yet, the
    clock at [t0]. *)
Definition start (t0 : Z) : World := {| calls := []; clock := t0; console := [] |}.

Definition run {A} (m : M A) (net : Network) (t0 : Z) : Result A * World :=
  m net (start t0).

(** ** Vocabulary of the specification *)

(** An upstream call fails when the network call itself fails or when the
    body of the response is not JSON: these are the two ways in which
    [await fetch(...)] followed by [await response.json()] throws. *)
Definition failed (c : Call) : bool :=
  match snd c with
  | NetworkError => true
  | Responded r =>
      match payload r with
      | Some _ => false
      | None => true
      end
  end.

(** The call goes to the backend [app]. *)
Definition to_backend (app : App) (c : Call) : bool :=
  startsWith (target (fst c)) (url app).

(** The calls that [w] logs for [app], oldest first. *)
Definition calls_to (app : App) (w : World) : list Call :=
  filter (to_backend app) (calls w).

(** The slot of a backend whose summary takes two calls, read off the calls
    logged for it: the error marker as soon as one of them failed; otherwise
    both calls were made and the slot is the summary shaped from the two
    bodies, or the error marker when the bodies cannot be shaped. *)
Definition slot_of_calls (shape : JSON -> JSON -> Result JSON)
           (cs : list Call) (slot : JSON) : Prop :=
  (existsb failed cs = true -> slot = error_marker) /\
  (existsb failed cs = false ->
   exists rq1 rq2 r1 r2 d1 d2,
     cs = [(rq1, Responded r1); (rq2, Responded r2)] /\
     payload r1 = Some d1 /\ payload r2 = Some d2 /\
     slot = match shape d1 d2 with
            | Ok s => s
            | Throw _ => error_marker
            end).

(** A summary object for [app]: it shows the display data of the registry
    entry and is not an error marker. *)
Definition summary_for (app : App) (slot : JSON) : Prop :=
  exists members,
    slot = JObj members /\
    lookup "name" members = Some (JStr (name app)) /\
    lookup "icon" members = Some (JStr (icon app)) /\
    lookup "color" members = Some (JStr (color app)) /\
    lookup "error" members = undefined.

(** A preview list that can be cut to five items: missing, null or an
    array. *)
Definition previewable (x : Value) : Prop :=
  x = undefined \/ x = Some JNull \/ exists items, x = Some (JArr items).

(** The item is an object whose [id] member is the string [id]. *)
Definition has_id (id : string) (x : JSON) : Prop :=
  exists members, x = JObj members /\ lookup "id" members = Some (JStr id).

(** The [completed] member of an item. *)
Definition completed_flag (x : JSON) : Value :=
  match x with
  | JObj members => lookup "completed" members
  | _ => undefined
  end.

(** The URL carries [secret=<value>] as a query parameter. *)
Definition secret_in_query (secret u : string) : Prop :=
  exists base rest,
    u = base ++ "?secret=" ++ secret ++ rest /\
    (rest = EmptyString \/ exists more, rest = "&" ++ more).

Definition has_question_mark (u : string) : bool :=
  existsb (Ascii.eqb "?") (list_ascii_of_string u).

(** The claim about the upstream convention, for one call to [app]. *)
Definition secret_as_query_parameter (app : App) (c : Call) : Prop :=
  secret_in_query (show (apiSecret app)) (target (fst c)) /\
  headers (fst c) = [].

(** What the code does, for a call to [app]: a call without a body carries the secret in the
    query and has no header; a call with a JSON body carries the secret as
    the [secret] member of that body, its URL has no query, and its only
    header is the content type. *)
Definition secret_attached (app : App) (c : Call) : Prop :=
  to_backend app c = true /\
  match body (fst c) with
  | None =>
      method (fst c) = "GET" /\ secret_as_query_parameter app c
  | Some content =>
      method (fst c) = "POST" /\
      has_question_mark (target (fst c)) = false /\
      headers (fst c) = [("Content-Type", "application/json")] /\
      exists members,
        content = JObj members /\
        lookup "secret" members = option_map JStr (apiSecret app)
  end.

(** The call goes to a backend of the registry and carries its secret. *)
Definition attached_for (registry : list (string * App)) (c : Call) : Prop :=
  exists key app, In (key, app) registry /\ secret_attached app c.

(** A piece of query string: empty, or starting with [&]. *)
Definition continues (rest : string) : Prop :=
  rest = EmptyString \/ exists more, rest = "&" ++ more.

(** A reply of the 500 class. *)
Definition server_error (r : Reply) : Prop :=
  exists code content, r = SendJson code content /\ 500 <= code <= 599.

(** The generic reply of a proxy endpoint whose upstream call failed. *)
Definition generic_failure (message : string) : Reply :=
  SendJson 500 (JObj [("error", JStr message)]).

(** The upstream answered with a status outside 200..299. *)
Definition non_2xx (o : FetchOutcome) : Prop :=
  exists r, o = Responded r /\ ok r = false.

(** The claim about upstream failures, for one handler: whenever one of
    its upstream calls meets a network failure or a status outside 200..299,
    the reply is of the 500 class. *)
Definition upstream_failure_gives_500 (h : M Reply) : Prop :=
  forall net t0,
    (exists c, In c (calls (snd (run h net t0))) /\
               (snd c = NetworkError \/ non_2xx (snd c))) ->
    exists r, fst (run h net t0) = Ok r /\ server_error r.

(** What a handler does on an arbitrary network: it replies (no exception
    escapes it), it replies with its generic 500 when one of its upstream
    calls failed, and each call it makes goes to [backend] with the secret
    attached the way the code does it. *)
Definition well_behaved (backend : App) (message : string) (h : M Reply) : Prop :=
  forall net t0,
  exists reply w,
    run h net t0 = (Ok reply, w) /\
    (existsb failed (calls w) = true -> reply = generic_failure message) /\
    Forall (secret_attached backend) (calls w).

(** A block of the overview handler extends the world with a run of new
    calls and a later clock. *)
Definition extends (w w' : World) (new : list Call) : Prop :=
  calls w' = (calls w ++ new)%list /\ clock w <= clock w'.

(** No credential: [!token]. *)
Definition absent (token : option string) : Prop :=
  token = None \/ token = Some EmptyString.






(** A member of a body sent by a backend: [undefined] when the body is not
    an object or has no such member. *)
Definition sent (d : JSON) (k : string) : Value :=
  match d with
  | JObj members => lookup k members
  | _ => undefined
  end.

(** A member of a member of a body sent by a backend. *)
Definition sent_in (d : JSON) (outer k : string) : Value :=
  match sent d outer with
  | Some inner => sent inner k
  | None => undefined
  end.

(** How a summary shows a count that the backend sent as [given]: the value
    itself when it is truthy, the number 0 otherwise. *)
Definition shown_as (given shown : Value) : Prop :=
  (truthy given = true /\ shown = given) \/
  (truthy given = false /\ shown = Some (JNum 0)).

(** ** Concrete deployments, requests and networks for the examples *)

Definition R0 : Runtime :=
  {| env := fun _ => None;
     jwt_verify := fun token _ =>
       if String.eqb token "good" then Some (JObj [("sub", JStr "inacio")]) else None;
     string_slice := fun s n => substring 0 n s |}.

Definition no_value : string -> option string := fun _ => None.

Definition request (original seen : string) (id : string) (content : Value) : Req :=
  {| protocol := "https";
     host := Some "inacio-dashboard.fly.dev";
     originalUrl := original;
     path := seen;
     query := no_value;
     authorization := None;
     cookies := no_value;
     params := fun _ => id;
     req_body := content |}.

(** A network on which every backend is down. *)
Definition net_down : Network := fun _ _ => (NetworkError, 30%N).

(** A network that answers every call with the same status and JSON body. *)
Definition net_const (code : Z) (content : JSON) : Network :=
  fun _ _ => (Responded {| status := code; payload := Some content |}, 12%N).

(** Seminars is down, reminders answers. *)
Definition net_seminars_down (content : JSON) : Network :=
  fun _ rq =>
    if startsWith (target rq) "https://seminars-app.fly.dev"
    then (NetworkError, 30%N)
    else (Responded {| status := 200; payload := Some content |}, 12%N).

Definition item (id : JSON) (done : bool) : JSON :=
  JObj [("id", id); ("title", JStr "Buy milk"); ("completed", JBool done)].

Definition listing (items : list JSON) : JSON :=
  JObj [("reminders", JArr items); ("count", JNum (Z.of_nat (length items)))].

(** [GET /api/overview], as the gate mounted on [/api] sees it. *)
Definition overview_request : Req :=
  request "/api/overview" "/overview" EmptyString undefined.

(** [POST /api/reminders {"title": "Buy milk"}] *)
Definition buy_milk : Req :=
  request "/api/reminders" "/reminders" EmptyString
          (Some (JObj [("title", JStr "Buy milk")])).

(** [POST /api/reminders/<id>/complete] *)
Definition toggle (id : string) : Req :=
  request ("/api/reminders/" ++ id ++ "/complete")
          ("/reminders/" ++ id ++ "/complete") id undefined.


(** A page request that presents a session cookie. *)
Definition page_with_cookie (session : string) : Req :=
  {| protocol := "https";
     host := Some "inacio-dashboard.fly.dev";
     originalUrl := "/";
     path := "/";
     query := no_value;
     authorization := None;
     cookies := fun n => if String.eqb n "auth_session" then Some session else None;
     params := fun _ => EmptyString;
     req_body := undefined |}.

(** ** Vocabulary of the further properties *)

(** The characters of a string. *)
Definition chars (s : string) : list ascii := list_ascii_of_string s.

(** A character that cannot end or split a query parameter: an unreserved
    character or the percent sign of an escape. *)
Definition uri_inert (c : ascii) : Prop := uri_unreserved c = true \/ c = "%"%char.

(** How many times [c] occurs in [s]. *)
Definition occurrences (c : ascii) (s : string) : nat :=
  count_occ ascii_dec (chars s) c.

(** [1] for a query parameter that passes an [if (x)] test, [0] otherwise. *)
Definition present (x : option string) : nat :=
  match x with
  | Some s => if String.eqb s EmptyString then 0%nat else 1%nat
  | None => 0%nat
  end.

(** The member names of a reminders summary and of a seminars summary. *)
Definition reminders_summary_keys : list string :=
  ["name"; "icon"; "color"; "todayCount"; "total"; "incomplete"; "overdue";
   "highPriority"; "items"].
Definition seminars_summary_keys : list string :=
  ["name"; "icon"; "color"; "upcomingCount"; "totalSpeakers"; "pendingTasks"; "items"].

(** The requests of a block of the overview that fetches [u1] and then
    [u2]: the first alone when it failed, both otherwise. *)
Definition fetched_in_turn (u1 u2 : string) (requests : list Request) : Prop :=
  requests = [GET u1] \/ requests = [GET u1; GET u2].

(** What a block of the overview leaves on the console for its slot: nothing
    when the slot is a summary shaped from two bodies, its line when the
    slot is the error marker. *)
Definition logged_for (shape : JSON -> JSON -> Result JSON) (line : string)
           (slot : JSON) (lines : list string) : Prop :=
  (lines = [] /\ exists d1 d2, shape d1 d2 = Ok slot) \/
  (lines = [line] /\ slot = error_marker).

(** A [reminders] member on which [?.find] throws: neither nullish nor an
    array. *)
Definition not_a_list (v : JSON) : Prop :=
  v <> JNull /\ forall items, v <> JArr items.

(** A request that presents [t] in its [Authorization] header only. *)
Definition with_bearer (t : string) : Req :=
  {| protocol := "https";
     host := Some "inacio-dashboard.fly.dev";
     originalUrl := "/api/overview";
     path := "/overview";
     query := no_value;
     authorization := Some ("Bearer " ++ t);
     cookies := no_value;
     params := fun _ => EmptyString;
     req_body := undefined |}.

(** [GET /api/reminders?folder=..&completed=..], as the handler reads it. *)
Definition filtered (folder completed : option string) : Req :=
  {| protocol := "https";
     host := Some "inacio-dashboard.fly.dev";
     originalUrl := "/api/reminders";
     path := "/reminders";
     query := fun n => if String.eqb n "folder" then folder
                       else if String.eqb n "completed" then completed
                       else None;
     authorization := None;
     cookies := no_value;
     params := fun _ => EmptyString;
     req_body := undefined |}.

(** * Proofs *)

(** ** Stepping the monad *)

Lemma prefix_append (a b : string) : String.prefix a (a ++ b) = true.
Proof.
  induction a as [|c a IH]; simpl.
  - now destruct b.
  - destruct (ascii_dec c c) as [_|ne]; [exact IH | now elim ne].
Qed.

Lemma fetch_step (rq : Request) (net : Network) (w : World) :
  fetch rq net w =
    (match fst (net (calls w) rq) with
     | NetworkError => Throw FetchError
     | Responded r => Ok r
     end,
     {| calls := calls w ++ [(rq, fst (net (calls w) rq))];
        clock := clock w + Z.of_N (snd (net (calls w) rq));
        console := console w |}).
Proof.
  unfold fetch. destruct (net (calls w) rq) as [o dt]. now destruct o.
Qed.

Ltac splits := repeat match goal with |- _ /\ _ => split end.

Lemma bind_ok {A B} (m : M A) (k : A -> M B) net w a w' :
  m net w = (Ok a, w') -> bind m k net w = k a net w'.
Proof. unfold bind. now intros ->. Qed.

Ltac step_fetch :=
  match goal with
  | |- context [fetch ?rq ?net ?w] =>
      rewrite (fetch_step rq net w);
      let o := fresh "o" in let dt := fresh "dt" in
      destruct (net (calls w) rq) as [o dt]; cbn [fst snd];
      destruct o as [|[? [?|]]]; cbn [payload json bind ret throw]
  end.

Ltac close_block :=
  cbn [console_error ret lift bind throw];
  do 3 eexists; split; [reflexivity|];
  split; [split; cbn [calls clock]; [rewrite <- ?app_assoc; reflexivity | lia]|];
  split; [repeat constructor; cbn [fst]; auto|];
  split; cbn [existsb failed snd payload orb]; intro; try discriminate;
  try reflexivity.

Lemma reminders_block_spec R app ov net w :
  exists slot w' new,
    Reminders.block R app ov net w = (Ok (set_app ov "reminders" slot), w') /\
    extends w w' new /\
    Forall (fun c => fst c = GET (Reminders.today_url app) \/
                     fst c = GET (Reminders.stats_url app)) new /\
    slot_of_calls (Reminders.summary R) new slot.
Proof.
  unfold Reminders.block, Reminders.attempt, try_catch, bind.
  step_fetch; [close_block| |close_block].
  step_fetch; [close_block| |close_block].
  destruct (Reminders.summary R j j0) as [s|e] eqn:Sh.
  all: close_block.
  all: do 6 eexists; repeat split; cbn [payload]; try reflexivity; now rewrite Sh.
Qed.

Lemma seminars_block_spec R ov net w :
  exists slot w' new,
    Jwt.seminars_block R ov net w = (Ok (set_app ov "seminars" slot), w') /\
    extends w w' new /\
    Forall (fun c => fst c = GET (Jwt.seminars_stats_url (Jwt.seminars R)) \/
                     fst c = GET (Jwt.seminars_upcoming_url (Jwt.seminars R))) new /\
    slot_of_calls (Jwt.seminars_summary R) new slot.
Proof.
  unfold Jwt.seminars_block, Jwt.seminars_attempt, try_catch, bind.
  step_fetch; [close_block| |close_block].
  step_fetch; [close_block| |close_block].
  destruct (Jwt.seminars_summary R j j0) as [s|e] eqn:Sh.
  all: close_block.
  all: do 6 eexists; repeat split; cbn [payload]; try reflexivity; now rewrite Sh.
Qed.

(** The classquizzes block makes no call and cannot reach its [catch]. *)
Lemma classquizzes_block_run ov net w :
  Jwt.classquizzes_block ov net w =
    (Ok (set_app ov "classquizzes" Jwt.classquizzes_summary), w).
Proof. reflexivity. Qed.

Lemma filter_all {A} (f : A -> bool) (l : list A) :
  Forall (fun x => f x = true) l -> filter f l = l.
Proof.
  induction 1 as [|x l Hx _ IH]; simpl; [reflexivity|].
  now rewrite Hx, IH.
Qed.

Lemma filter_none {A} (f : A -> bool) (l : list A) :
  Forall (fun x => f x = false) l -> filter f l = [].
Proof.
  induction 1 as [|x l Hx _ IH]; simpl; [reflexivity|].
  now rewrite Hx.
Qed.

Lemma reminders_calls_sorted R (new : list Call) :
  Forall (fun c => fst c = GET (Reminders.today_url (reminders R)) \/
                   fst c = GET (Reminders.stats_url (reminders R))) new ->
  Forall (fun c => to_backend (reminders R) c = true) new /\
  Forall (fun c => to_backend Jwt.classquizzes c = false) new /\
  Forall (fun c => to_backend (Jwt.seminars R) c = false) new.
Proof.
  intro H. repeat split; eapply Forall_impl; try exact H;
    intros [rq o] [E|E]; cbn [fst] in E; subst rq; reflexivity.
Qed.

Lemma seminars_calls_sorted R (new : list Call) :
  Forall (fun c => fst c = GET (Jwt.seminars_stats_url (Jwt.seminars R)) \/
                   fst c = GET (Jwt.seminars_upcoming_url (Jwt.seminars R))) new ->
  Forall (fun c => to_backend (Jwt.seminars R) c = true) new /\
  Forall (fun c => to_backend Jwt.classquizzes c = false) new /\
  Forall (fun c => to_backend (reminders R) c = false) new.
Proof.
  intro H. repeat split; eapply Forall_impl; try exact H;
    intros [rq o] [E|E]; cbn [fst] in E; subst rq; reflexivity.
Qed.

(** The whole run of the overview handler of the JWT variant. *)
Lemma jwt_overview_run R net t0 :
  exists r s w newr news,
    run (Jwt.overview R) net t0 =
      (Ok (SendJson 200
             (JObj [("apps", JObj [("reminders", r);
                                   ("classquizzes", Jwt.classquizzes_summary);
                                   ("seminars", s)]);
                    ("timestamp", JNum t0)])), w) /\
    calls w = (newr ++ news)%list /\
    t0 <= clock w /\
    Forall (fun c => fst c = GET (Reminders.today_url (reminders R)) \/
                     fst c = GET (Reminders.stats_url (reminders R))) newr /\
    Forall (fun c => fst c = GET (Jwt.seminars_stats_url (Jwt.seminars R)) \/
                     fst c = GET (Jwt.seminars_upcoming_url (Jwt.seminars R))) news /\
    slot_of_calls (Reminders.summary R) newr r /\
    slot_of_calls (Jwt.seminars_summary R) news s.
Proof.
  unfold run, Jwt.overview.
  unfold bind at 1. cbn [Date_now start clock].
  set (ov0 := {| apps := []; timestamp := t0 |}).
  set (w0 := {| calls := []; clock := t0; console := [] |}).
  destruct (reminders_block_spec R (reminders R) ov0 net w0)
    as (r & w1 & newr & E1 & [C1 T1] & F1 & S1).
  rewrite (bind_ok _ _ _ _ _ _ E1).
  rewrite (bind_ok _ _ _ _ _ _ (classquizzes_block_run _ net w1)).
  destruct (seminars_block_spec R
              (set_app (set_app ov0 "reminders" r) "classquizzes" Jwt.classquizzes_summary)
              net w1) as (s & w2 & news & E2 & [C2 T2] & F2 & S2).
  rewrite (bind_ok _ _ _ _ _ _ E2).
  exists r, s, w2, newr, news.
  split; [reflexivity|].
  split; [rewrite C2, C1; reflexivity|].
  split; [cbn [clock w0] in T1; lia|].
  auto.
Qed.

(** The whole run of the overview handler of the cookie variant. *)
Lemma cookie_overview_run R net t0 :
  exists r w,
    run (Cookie.overview R) net t0 =
      (Ok (SendJson 200 (JObj [("apps", JObj [("reminders", r)]);
                               ("timestamp", JNum t0)])), w) /\
    t0 <= clock w /\
    Forall (fun c => fst c = GET (Reminders.today_url (reminders R)) \/
                     fst c = GET (Reminders.stats_url (reminders R))) (calls w) /\
    slot_of_calls (Reminders.summary R) (calls w) r.
Proof.
  unfold run, Cookie.overview.
  unfold bind at 1. cbn [Date_now start clock].
  set (ov0 := {| apps := []; timestamp := t0 |}).
  set (w0 := {| calls := []; clock := t0; console := [] |}).
  destruct (reminders_block_spec R (reminders R) ov0 net w0)
    as (r & w1 & newr & E1 & [C1 T1] & F1 & S1).
  rewrite (bind_ok _ _ _ _ _ _ E1).
  exists r, w1. subst w0. cbn [calls clock app] in C1, T1. rewrite C1.
  splits; auto.
Qed.

(** ** The summaries *)

Lemma rbind_ok {A B} (r : Result A) (k : A -> Result B) (b : B) :
  rbind r k = Ok b -> exists a, r = Ok a /\ k a = Ok b.
Proof. destruct r as [a|e]; simpl; [eauto | discriminate]. Qed.

Ltac invert_shape H :=
  repeat (apply rbind_ok in H; destruct H as (? & _ & H));
  injection H as <-.

Lemma reminders_summary_valid R d1 d2 s :
  Reminders.summary R d1 d2 = Ok s -> summary_for (reminders R) s.
Proof.
  unfold Reminders.summary. intro H. invert_shape H.
  eexists. split; [reflexivity|]. repeat split.
Qed.

Lemma seminars_summary_valid R d1 d2 s :
  Jwt.seminars_summary R d1 d2 = Ok s -> summary_for (Jwt.seminars R) s.
Proof.
  unfold Jwt.seminars_summary. intro H. invert_shape H.
  eexists. split; [reflexivity|]. repeat split.
Qed.

Lemma opt_get_total (x : Value) (p : string) : exists v, opt_get x p = Ok v.
Proof. destruct x as [[| | | | |]|]; simpl; eauto. Qed.

Lemma opt_slice5_previewable R (x : Value) :
  previewable x -> exists v, opt_slice5 R x = Ok v.
Proof. intros [->|[->|[items ->]]]; simpl; eauto. Qed.

Lemma reminders_summary_total R m1 m2 :
  previewable (lookup "reminders" m1) ->
  exists s, Reminders.summary R (JObj m1) (JObj m2) = Ok s.
Proof.
  intro P. unfold Reminders.summary. cbn [get rbind].
  destruct (opt_get_total (lookup "stats" m2) "total") as [a ->].
  destruct (opt_get_total (lookup "stats" m2) "incomplete") as [b ->].
  destruct (opt_get_total (lookup "stats" m2) "overdue") as [c ->].
  destruct (opt_get_total (lookup "stats" m2) "highPriority") as [d ->].
  destruct (opt_slice5_previewable R _ P) as [e ->].
  cbn [rbind]. eauto.
Qed.

Lemma seminars_summary_total R m1 m2 :
  previewable (lookup "seminars" m2) ->
  exists s, Jwt.seminars_summary R (JObj m1) (JObj m2) = Ok s.
Proof.
  intro P. unfold Jwt.seminars_summary. cbn [get rbind].
  destruct (opt_slice5_previewable R _ P) as [e ->].
  cbn [rbind]. eauto.
Qed.

(** ** Claims about the overview *)

(** C1.  The overview reply has exactly one slot per configured backend, in
    both variants and whatever the network does.  The slot of a backend is
    read off the calls made to that backend alone: it is the error marker as
    soon as one of its calls failed, and otherwise the summary shaped from
    what its own calls returned, which is a valid summary object whenever the
    returned bodies can be shaped (and they can when they are objects whose
    preview list is missing, null or an array).  The reply is always a 200:
    no failure aborts it. *)
Theorem overview_isolates_backend_failures (R : Runtime) (net : Network) (t0 : Z) :
  (exists r c s,
      fst (run (Jwt.overview R) net t0) =
        Ok (SendJson 200
              (JObj [("apps", JObj [("reminders", r); ("classquizzes", c);
                                    ("seminars", s)]);
                     ("timestamp", JNum t0)])) /\
      map fst [("reminders", r); ("classquizzes", c); ("seminars", s)]
        = map fst (Jwt.APPS R) /\
      slot_of_calls (Reminders.summary R)
        (calls_to (reminders R) (snd (run (Jwt.overview R) net t0))) r /\
      (calls_to Jwt.classquizzes (snd (run (Jwt.overview R) net t0)) = [] /\
       c = Jwt.classquizzes_summary) /\
      slot_of_calls (Jwt.seminars_summary R)
        (calls_to (Jwt.seminars R) (snd (run (Jwt.overview R) net t0))) s) /\
  (exists r,
      fst (run (Cookie.overview R) net t0) =
        Ok (SendJson 200 (JObj [("apps", JObj [("reminders", r)]);
                                ("timestamp", JNum t0)])) /\
      map fst [("reminders", r)] = map fst (Cookie.APPS R) /\
      slot_of_calls (Reminders.summary R)
        (calls_to (reminders R) (snd (run (Cookie.overview R) net t0))) r) /\
  ((forall d1 d2 s, Reminders.summary R d1 d2 = Ok s -> summary_for (reminders R) s) /\
   (forall d1 d2 s, Jwt.seminars_summary R d1 d2 = Ok s ->
                    summary_for (Jwt.seminars R) s) /\
   summary_for Jwt.classquizzes Jwt.classquizzes_summary) /\
  ((forall m1 m2, previewable (lookup "reminders" m1) ->
                  exists s, Reminders.summary R (JObj m1) (JObj m2) = Ok s) /\
   (forall m1 m2, previewable (lookup "seminars" m2) ->
                  exists s, Jwt.seminars_summary R (JObj m1) (JObj m2) = Ok s)).
Proof.
  split; [|split; [|split]].
  - destruct (jwt_overview_run R net t0)
      as (r & s & w & newr & news & E & C & _ & Fr & Fs & Sr & Ss).
    destruct (reminders_calls_sorted R _ Fr) as (Rr & Rc & Rs).
    destruct (seminars_calls_sorted R _ Fs) as (Ts & Tc & Tr).
    exists r, Jwt.classquizzes_summary, s. rewrite E. cbn [fst snd].
    unfold calls_to. rewrite C, !filter_app.
    rewrite (filter_all _ _ Rr), (filter_none _ _ Tr),
      (filter_none _ _ Rc), (filter_none _ _ Tc),
      (filter_none _ _ Rs), (filter_all _ _ Ts), app_nil_r.
    cbn [app]. splits; auto.
  - destruct (cookie_overview_run R net t0) as (r & w & E & _ & Fr & Sr).
    destruct (reminders_calls_sorted R _ Fr) as (Rr & _ & _).
    exists r. rewrite E. cbn [fst snd]. unfold calls_to.
    rewrite (filter_all _ _ Rr). splits; auto.
  - repeat split.
    + apply reminders_summary_valid.
    + apply seminars_summary_valid.
    + eexists. split; [reflexivity|]. repeat split.
  - split; intros; [now apply reminders_summary_total | now apply seminars_summary_total].
Qed.

(** C8.  The overview reply is a 200 whose [timestamp] is the number read
    from the clock when the handler starts: it is no earlier than the start
    of the handler (and no later than the reply), whatever the network does
    to the fetches. *)
Theorem overview_timestamp (R : Runtime) (net : Network) (t0 : Z) :
  (exists apps t,
      fst (run (Jwt.overview R) net t0) =
        Ok (SendJson 200 (JObj [("apps", apps); ("timestamp", JNum t)])) /\
      clock (start t0) <= t <= clock (snd (run (Jwt.overview R) net t0))) /\
  (exists apps t,
      fst (run (Cookie.overview R) net t0) =
        Ok (SendJson 200 (JObj [("apps", apps); ("timestamp", JNum t)])) /\
      clock (start t0) <= t <= clock (snd (run (Cookie.overview R) net t0))).
Proof.
  split.
  - destruct (jwt_overview_run R net t0) as (r & s & w & ? & ? & E & _ & T & _).
    rewrite E. cbn [fst snd start clock]. do 2 eexists. split; [reflexivity | lia].
  - destruct (cookie_overview_run R net t0) as (r & w & E & T & _).
    rewrite E. cbn [fst snd start clock]. do 2 eexists. split; [reflexivity | lia].
Qed.

(** C9.  In the JWT variant the classquizzes slot of the overview is always
    the fixed object built from the registry entry: the block that builds it
    makes no upstream call and never reaches its [catch], so the slot is
    never the error marker. *)
Theorem classquizzes_slot_is_fixed (R : Runtime) (net : Network) (t0 : Z) :
  let fixed := JObj [("name", JStr "ClassQuizzes"); ("icon", JStr "📝");
                     ("color", JStr "#5856D6");
                     ("url", JStr "https://classquizzes.fly.dev/admin")] in
  (exists r s,
      fst (run (Jwt.overview R) net t0) =
        Ok (SendJson 200
              (JObj [("apps", JObj [("reminders", r); ("classquizzes", fixed);
                                    ("seminars", s)]);
                     ("timestamp", JNum t0)]))) /\
  fixed <> error_marker /\
  calls_to Jwt.classquizzes (snd (run (Jwt.overview R) net t0)) = [] /\
  (forall ov net' w,
      Jwt.classquizzes_block ov net' w = (Ok (set_app ov "classquizzes" fixed), w)).
Proof.
  intro fixed.
  destruct (jwt_overview_run R net t0)
    as (r & s & w & newr & news & E & C & _ & Fr & Fs & _).
  destruct (reminders_calls_sorted R _ Fr) as (_ & Rc & _).
  destruct (seminars_calls_sorted R _ Fs) as (_ & Tc & _).
  rewrite E. cbn [fst snd]. repeat split.
  - exists r, s. reflexivity.
  - discriminate.
  - unfold calls_to. rewrite C, filter_app.
    now rewrite (filter_none _ _ Rc), (filter_none _ _ Tc).
Qed.

(** ** Locating an item by id *)

Lemma strict_eq_has_id (id : string) (x : JSON) (v : Value) :
  get (Some x) "id" = Ok v -> strict_eq_string v id = true -> has_id id x.
Proof.
  destruct x as [| | | | |members]; simpl; try discriminate;
    intros [= <-]; simpl; try discriminate.
  destruct (lookup "id" members) as [[| | |t| |]|] eqn:L; simpl; try discriminate.
  intros E%String.eqb_eq. subst t. now exists members.
Qed.

Lemma get_not_null (x : JSON) (p : string) :
  x <> JNull -> exists v, get (Some x) p = Ok v.
Proof. destruct x; simpl; eauto. congruence. Qed.

Lemma find_id_none (id : string) (items : list JSON) :
  Forall (fun x => x <> JNull /\ ~ has_id id x) items ->
  find_id items id = Ok undefined.
Proof.
  induction 1 as [|x items [NN NH] _ IH]; cbn [find_id]; [reflexivity|].
  destruct (get_not_null x "id" NN) as [v G]. rewrite G. cbn [rbind].
  destruct (strict_eq_string v id) eqn:E; [|exact IH].
  elim NH. eapply strict_eq_has_id; eauto.
Qed.

Lemma find_id_first (id : string) (pre post : list JSON) (r : JSON) :
  Forall (fun x => x <> JNull /\ ~ has_id id x) pre ->
  has_id id r ->
  find_id (pre ++ r :: post) id = Ok (Some r).
Proof.
  intros H (members & -> & L).
  induction H as [|x pre [NN NH] _ IH]; cbn [find_id app].
  - cbn [get rbind]. rewrite L. cbn [strict_eq_string]. now rewrite String.eqb_refl.
  - destruct (get_not_null x "id" NN) as [v G]. rewrite G. cbn [rbind].
    destruct (strict_eq_string v id) eqn:E; [|exact IH].
    elim NH. eapply strict_eq_has_id; eauto.
Qed.

(** ** The toggle endpoint *)

Section Toggle.
Variables (backend : App) (req : Req) (net : Network) (t0 : Z).
Let id := params req "id".
Let c1 := GET (Reminders.list_url backend).

Variables (r1 : Response) (data : JSON) (found : Value).
Hypothesis answered : fst (net [] c1) = Responded r1.
Hypothesis parsed : payload r1 = Some data.
Hypothesis listed : get (Some data) "reminders" = Ok found.

Lemma complete_not_found :
  opt_find_id found id = Ok undefined ->
  run (Reminders.complete backend req) net t0
    = (Ok (SendJson 404 (JObj [("error", JStr "Reminder not found")])),
       {| calls := [(c1, Responded r1)];
          clock := t0 + Z.of_N (snd (net [] c1));
          console := [] |}).
Proof.
  intro NF.
  unfold run, Reminders.complete, try_catch, bind.
  rewrite fetch_step. cbn [start calls clock console List.app].
  fold c1. rewrite answered.
  unfold json. rewrite parsed. cbn [ret lift]. rewrite listed.
  fold id. rewrite NF. reflexivity.
Qed.

Lemma complete_found (members : list (string * JSON)) :
  opt_find_id found id = Ok (Some (JObj members)) ->
  let c2 := Reminders.POST (Reminders.bulk_url backend)
              (JObj (object_of
                       [("secret", option_map JStr (apiSecret backend));
                        ("action", Some (JStr (Reminders.action_for
                                                 (lookup "completed" members))));
                        ("ids", Some (JArr [JStr id]))])) in
  let o2 := fst (net [(c1, Responded r1)] c2) in
  run (Reminders.complete backend req) net t0
    = (Ok (match o2 with
           | NetworkError => generic_failure "Failed to update reminder"
           | Responded r2 =>
               match payload r2 with
               | Some result => res_json result
               | None => generic_failure "Failed to update reminder"
               end
           end),
       {| calls := [(c1, Responded r1); (c2, o2)];
          clock := t0 + Z.of_N (snd (net [] c1))
                   + Z.of_N (snd (net [(c1, Responded r1)] c2));
          console := [] |}).
Proof.
  intros F c2 o2.
  unfold run, Reminders.complete, try_catch, bind.
  rewrite fetch_step. cbn [start calls clock console List.app].
  fold c1. rewrite answered.
  unfold json at 1. rewrite parsed. cbn [ret lift]. rewrite listed.
  fold id. rewrite F. cbn [truthy negb get].
  rewrite fetch_step. cbn [start calls clock console List.app].
  fold c2. fold o2.
  destruct o2 as [|[st [d|]]]; reflexivity.
Qed.
End Toggle.

(** C3.  When the fetched list holds an item with the requested id (the
    first such item is the one located), the toggle endpoint follows the list
    fetch with exactly one bulk call, whose [action] is "complete" when the
    item's [completed] flag is false and "uncomplete" when it is true, and
    whose [ids] is the one-element list of the requested id.  Both files
    have the same handler. *)
Theorem toggle_requests_inverse_action
        (R : Runtime) (req : Req) (net : Network) (t0 : Z)
        (r1 : Response) (members : list (string * JSON))
        (pre post : list JSON) (r : JSON) (flag : bool) :
  let id := params req "id" in
  let fetch_list := GET ("https://reminders-app.fly.dev/api/external/reminders?secret="
                           ++ env_or R "REMINDERS_API_SECRET" "assistant-secret-key") in
  let bulk :=
    {| target := "https://reminders-app.fly.dev/api/external/bulk";
       method := "POST";
       headers := [("Content-Type", "application/json")];
       body := Some (JObj [("secret", JStr (env_or R "REMINDERS_API_SECRET"
                                              "assistant-secret-key"));
                           ("action", JStr (if flag then "uncomplete" else "complete"));
                           ("ids", JArr [JStr id])]) |} in
  fst (net [] fetch_list) = Responded r1 ->
  payload r1 = Some (JObj members) ->
  lookup "reminders" members = Some (JArr (pre ++ r :: post)) ->
  Forall (fun x => x <> JNull /\ ~ has_id id x) pre ->
  has_id id r ->
  completed_flag r = Some (JBool flag) ->
  (exists o, calls (snd (run (Jwt.complete R req) net t0))
             = [(fetch_list, Responded r1); (bulk, o)]) /\
  (exists o, calls (snd (run (Cookie.complete R req) net t0))
             = [(fetch_list, Responded r1); (bulk, o)]).
Proof.
  intros id fetch_list bulk A P L Hpre Hr Hflag.
  assert (F : opt_find_id (lookup "reminders" members) id = Ok (Some r)).
  { rewrite L. cbn [opt_find_id]. now apply find_id_first. }
  destruct Hr as (mr & -> & Hid). cbn [completed_flag] in Hflag.
  pose proof (complete_found (reminders R) req net t0 r1 (JObj members) _
                A P eq_refl mr F) as Run.
  cbn zeta in Run. rewrite Hflag in Run.
  assert (E : Reminders.action_for (Some (JBool flag))
              = if flag then "uncomplete" else "complete") by now destruct flag.
  rewrite E in Run.
  unfold Jwt.complete, Cookie.complete. rewrite Run.
  split; eexists; reflexivity.
Qed.

(** When the list is fetched and no item with the requested id is found in
    it (the list is missing, null, or an array of non-null entries none of
    which has that id), the toggle endpoint answers 404 and the list fetch
    is its only upstream call. *)
Lemma unknown_id_gives_404
        (R : Runtime) (req : Req) (net : Network) (t0 : Z)
        (r1 : Response) (members : list (string * JSON)) :
  let id := params req "id" in
  let fetch_list := GET ("https://reminders-app.fly.dev/api/external/reminders?secret="
                           ++ env_or R "REMINDERS_API_SECRET" "assistant-secret-key") in
  fst (net [] fetch_list) = Responded r1 ->
  payload r1 = Some (JObj members) ->
  (lookup "reminders" members = undefined \/
   lookup "reminders" members = Some JNull \/
   exists items, lookup "reminders" members = Some (JArr items) /\
                 Forall (fun x => x <> JNull /\ ~ has_id id x) items) ->
  (fst (run (Jwt.complete R req) net t0)
     = Ok (SendJson 404 (JObj [("error", JStr "Reminder not found")])) /\
   calls (snd (run (Jwt.complete R req) net t0)) = [(fetch_list, Responded r1)]) /\
  (fst (run (Cookie.complete R req) net t0)
     = Ok (SendJson 404 (JObj [("error", JStr "Reminder not found")])) /\
   calls (snd (run (Cookie.complete R req) net t0)) = [(fetch_list, Responded r1)]).
Proof.
  intros id fetch_list A P L.
  assert (F : opt_find_id (lookup "reminders" members) id = Ok undefined).
  { destruct L as [->|[->|(items & -> & H)]]; cbn [opt_find_id]; try reflexivity.
    now apply find_id_none. }
  pose proof (complete_not_found (reminders R) req net t0 r1 (JObj members) _
                A P eq_refl F) as Run.
  unfold Jwt.complete, Cookie.complete. rewrite Run. auto.
Qed.

(** C10.  The toggle endpoint compares the path parameter, a string, with
    each item's [id] by strict equality.  An item whose [id] is not a string
    never matches; so when no item of the fetched list has a string id, the
    request is answered 404 and no bulk call is made, whatever id is asked
    for. *)
Theorem non_string_ids_never_match
        (R : Runtime) (req : Req) (net : Network) (t0 : Z)
        (r1 : Response) (members : list (string * JSON)) (items : list JSON) :
  let id := params req "id" in
  let fetch_list := GET (Reminders.list_url (reminders R)) in
  fst (net [] fetch_list) = Responded r1 ->
  payload r1 = Some (JObj members) ->
  lookup "reminders" members = Some (JArr items) ->
  Forall (fun x => exists mx, x = JObj mx /\
                              forall s, lookup "id" mx <> Some (JStr s)) items ->
  Forall (fun x => forall v, get (Some x) "id" = Ok v ->
                             strict_eq_string v id = false) items /\
  (fst (run (Jwt.complete R req) net t0)
     = Ok (SendJson 404 (JObj [("error", JStr "Reminder not found")])) /\
   calls (snd (run (Jwt.complete R req) net t0)) = [(fetch_list, Responded r1)]) /\
  (fst (run (Cookie.complete R req) net t0)
     = Ok (SendJson 404 (JObj [("error", JStr "Reminder not found")])) /\
   calls (snd (run (Cookie.complete R req) net t0)) = [(fetch_list, Responded r1)]).
Proof.
  intros id fetch_list A P L H.
  assert (N : Forall (fun x => x <> JNull /\ ~ has_id id x) items).
  { eapply Forall_impl; [|exact H]. intros x (mx & -> & Hs). split; [discriminate|].
    intros (m' & [= <-] & Hid). now apply (Hs id). }
  split.
  - eapply Forall_impl; [|exact H]. intros x (mx & -> & Hs) v [= <-].
    destruct (lookup "id" mx) as [[| | |s| |]|] eqn:E; try reflexivity.
    now elim (Hs s).
  - assert (F : opt_find_id (lookup "reminders" members) id = Ok undefined).
    { rewrite L. cbn [opt_find_id]. now apply find_id_none. }
    pose proof (complete_not_found (reminders R) req net t0 r1 (JObj members) _
                  A P eq_refl F) as Run.
    unfold Jwt.complete, Cookie.complete. rewrite Run. auto.
Qed.

(** ** The proxy endpoints on every input *)

Lemma append_empty_r (s : string) : s ++ EmptyString = s.
Proof. induction s as [|c s IH]; simpl; [reflexivity | now rewrite IH]. Qed.

Lemma secret_in_query_last (base secret : string) :
  secret_in_query secret (base ++ "?secret=" ++ secret).
Proof.
  exists base, EmptyString. split; [|now left].
  now rewrite append_empty_r.
Qed.

Lemma secret_in_query_more (base secret more : string) :
  secret_in_query secret (base ++ "?secret=" ++ secret ++ "&" ++ more).
Proof. exists base, ("&" ++ more). split; [reflexivity | right; eauto]. Qed.

Lemma get_attached (backend : App) (u : string) (o : FetchOutcome) :
  startsWith u (url backend) = true ->
  secret_in_query (show (apiSecret backend)) u ->
  secret_attached backend (GET u, o).
Proof.
  intros P H. unfold secret_attached, secret_as_query_parameter, to_backend.
  cbn. auto.
Qed.

Lemma reminders_list_attached R o :
  secret_attached (reminders R) (GET (Reminders.list_url (reminders R)), o).
Proof.
  apply get_attached; [reflexivity|].
  apply (secret_in_query_last "https://reminders-app.fly.dev/api/external/reminders").
Qed.

Lemma create_well_behaved R req :
  well_behaved (reminders R) "Failed to create reminder"
               (Reminders.create (reminders R) req).
Proof.
  intros net t0. unfold run, Reminders.create, try_catch, bind, lift.
  destruct (get (req_body req) "title") as [title|]; cbn [ret];
    [|do 2 eexists; splits; [reflexivity|discriminate|constructor]].
  destruct (get (req_body req) "notes") as [notes|];
    [|do 2 eexists; splits; [reflexivity|discriminate|constructor]].
  destruct (get (req_body req) "priority") as [priority|];
    [|do 2 eexists; splits; [reflexivity|discriminate|constructor]].
  step_fetch; do 2 eexists; (split; [reflexivity|]); cbn [calls start List.app];
    (split; [cbn; try discriminate; reflexivity|]).
  all: repeat constructor; cbn; eexists; split; reflexivity.
Qed.

Lemma complete_well_behaved R req :
  well_behaved (reminders R) "Failed to update reminder"
               (Reminders.complete (reminders R) req).
Proof.
  intros net t0. unfold run, Reminders.complete, try_catch, bind, lift.
  pose proof (reminders_list_attached R) as A1.
  step_fetch;
    try (do 2 eexists; splits; [reflexivity|reflexivity|repeat constructor; apply A1]).
  destruct (get (Some j) "reminders") as [found|];
    [|do 2 eexists; splits; [reflexivity|discriminate|repeat constructor; apply A1]].
  destruct (opt_find_id found (params req "id")) as [reminder|];
    [|do 2 eexists; splits; [reflexivity|discriminate|repeat constructor; apply A1]].
  destruct (negb (truthy reminder)); cbn [ret];
    [do 2 eexists; splits; [reflexivity|discriminate|repeat constructor; apply A1]|].
  destruct (get reminder "completed") as [completed|];
    [|do 2 eexists; splits; [reflexivity|discriminate|repeat constructor; apply A1]].
  step_fetch; do 2 eexists; (split; [reflexivity|]); cbn [calls start List.app];
    (split; [cbn; try discriminate; reflexivity|]).
  all: constructor; [apply A1|].
  all: repeat constructor; cbn; eexists; split; reflexivity.
Qed.

Lemma continues_append (a b : string) :
  continues a -> continues b -> continues (a ++ b).
Proof.
  intros [->|[more ->]] Hb; [exact Hb|].
  right. exists (more ++ b). reflexivity.
Qed.

Lemma continues_when_truthy (x : option string) (more : string) :
  continues (Cookie.when_truthy x ("&" ++ more)).
Proof.
  unfold Cookie.when_truthy. destruct x as [s|]; [|now left].
  destruct (String.eqb s EmptyString); [now left | right; eauto].
Qed.

Lemma list_reminders_well_behaved R req :
  well_behaved (reminders R) "Failed to fetch reminders" (Cookie.list_reminders R req).
Proof.
  intros net t0. unfold run, Cookie.list_reminders, try_catch, bind.
  assert (A : forall o, secret_attached (reminders R) (GET (Cookie.list_url R req), o)).
  { intro o. apply get_attached; [reflexivity|].
    exists "https://reminders-app.fly.dev/api/external/reminders".
    eexists. split; [reflexivity|].
    repeat apply continues_append; try apply continues_when_truthy.
    destruct (query req "completed"); [right; eexists; reflexivity | now left]. }
  step_fetch; do 2 eexists; (split; [reflexivity|]); cbn [calls start List.app];
    (split; [cbn; try discriminate; reflexivity|]).
  all: repeat constructor; apply A.
Qed.

Lemma secret_in_query_has_mark (secret u : string) :
  secret_in_query secret u -> has_question_mark u = true.
Proof.
  intros (base & rest & -> & _). unfold has_question_mark.
  remember ("?secret=" ++ secret ++ rest) as tail eqn:T.
  assert (H : existsb (Ascii.eqb "?") (list_ascii_of_string tail) = true)
    by (subst tail; reflexivity).
  clear T. induction base as [|c base IH]; simpl; [exact H|].
  rewrite IH. apply orb_true_r.
Qed.

(** The create endpoint, once the body has been read. *)
Lemma create_run (backend : App) (req : Req) (net : Network) (t0 : Z)
      (members : list (string * JSON)) :
  req_body req = Some (JObj members) ->
  let creation :=
    Reminders.POST (Reminders.create_url backend)
      (JObj (object_of
               [("secret", option_map JStr (apiSecret backend));
                ("title", lookup "title" members);
                ("notes", Some (with_default (lookup "notes" members) (JStr EmptyString)));
                ("priority", Some (with_default (lookup "priority" members)
                                                (JStr "normal")))])) in
  let o := fst (net [] creation) in
  run (Reminders.create backend req) net t0
    = (Ok (match o with
           | NetworkError => generic_failure "Failed to create reminder"
           | Responded r =>
               match payload r with
               | Some data => res_json data
               | None => generic_failure "Failed to create reminder"
               end
           end),
       {| calls := [(creation, o)];
          clock := t0 + Z.of_N (snd (net [] creation));
          console := [] |}).
Proof.
  intros B creation o.
  unfold run, Reminders.create, try_catch, bind, lift. rewrite B. cbn [get].
  rewrite fetch_step. cbn [start calls clock console List.app].
  fold creation. fold o.
  destruct o as [|[st [d|]]]; reflexivity.
Qed.

(** ** Claims about the proxy endpoints *)

(** C5.  A create request whose body supplies only a title makes one
    upstream call, a POST whose JSON body is exactly
    [{secret, title, notes: (empty string), priority: "normal"}]; and when the
    backend answers with a JSON body, the dashboard replies with that body,
    unchanged.  Both files have the same handler. *)
Theorem create_fills_defaults
        (R : Runtime) (req : Req) (net : Network) (t0 : Z) (title : JSON) :
  let creation :=
    {| target := "https://reminders-app.fly.dev/api/external/reminder";
       method := "POST";
       headers := [("Content-Type", "application/json")];
       body := Some (JObj [("secret", JStr (env_or R "REMINDERS_API_SECRET"
                                              "assistant-secret-key"));
                           ("title", title);
                           ("notes", JStr EmptyString);
                           ("priority", JStr "normal")]) |} in
  req_body req = Some (JObj [("title", title)]) ->
  (calls (snd (run (Jwt.create R req) net t0)) = [(creation, fst (net [] creation))] /\
   forall r data, fst (net [] creation) = Responded r -> payload r = Some data ->
                  fst (run (Jwt.create R req) net t0) = Ok (SendJson 200 data)) /\
  (calls (snd (run (Cookie.create R req) net t0)) = [(creation, fst (net [] creation))] /\
   forall r data, fst (net [] creation) = Responded r -> payload r = Some data ->
                  fst (run (Cookie.create R req) net t0) = Ok (SendJson 200 data)).
Proof.
  intros creation B.
  pose proof (create_run (reminders R) req net t0 _ B) as Run. cbn zeta in Run.
  change (Reminders.POST _ _) with creation in Run.
  unfold Jwt.create, Cookie.create. rewrite Run. cbn [fst snd calls].
  split; (split; [reflexivity|]); intros r data -> ->; reflexivity.
Qed.

(** C6, as the code has it.  Every call that a handler makes to a backend
    carries that backend's shared secret.  The calls without a body (the
    overview fetches, the list fetches) carry it as the [secret] query
    parameter and have no header; the calls with a JSON body (the creation
    call and the bulk call) carry it as the [secret] member of that body,
    their URL has no query and their only header is the content type. *)
Theorem secret_travels_with_every_call
        (R : Runtime) (req : Req) (net : Network) (t0 : Z) :
  (Forall (attached_for (Jwt.APPS R)) (calls (snd (run (Jwt.overview R) net t0))) /\
   Forall (attached_for (Jwt.APPS R)) (calls (snd (run (Jwt.create R req) net t0))) /\
   Forall (attached_for (Jwt.APPS R)) (calls (snd (run (Jwt.complete R req) net t0)))) /\
  (Forall (attached_for (Cookie.APPS R)) (calls (snd (run (Cookie.overview R) net t0))) /\
   Forall (attached_for (Cookie.APPS R))
          (calls (snd (run (Cookie.list_reminders R req) net t0))) /\
   Forall (attached_for (Cookie.APPS R)) (calls (snd (run (Cookie.create R req) net t0))) /\
   Forall (attached_for (Cookie.APPS R)) (calls (snd (run (Cookie.complete R req) net t0)))).
Proof.
  assert (Rem : forall c,
             fst c = GET (Reminders.today_url (reminders R)) \/
             fst c = GET (Reminders.stats_url (reminders R)) ->
             secret_attached (reminders R) c).
  { intros [rq o] [E|E]; cbn [fst] in E; subst rq.
    - apply get_attached; [reflexivity|].
      apply (secret_in_query_more
               "https://reminders-app.fly.dev/api/external/reminders" _ "today=true").
    - apply get_attached; [reflexivity|].
      apply (secret_in_query_last "https://reminders-app.fly.dev/api/external/stats"). }
  assert (Sem : forall c,
             fst c = GET (Jwt.seminars_stats_url (Jwt.seminars R)) \/
             fst c = GET (Jwt.seminars_upcoming_url (Jwt.seminars R)) ->
             secret_attached (Jwt.seminars R) c).
  { intros [rq o] [E|E]; cbn [fst] in E; subst rq.
    - apply get_attached; [reflexivity|].
      apply (secret_in_query_last "https://seminars-app.fly.dev/api/external/stats").
    - apply get_attached; [reflexivity|].
      apply (secret_in_query_more
               "https://seminars-app.fly.dev/api/external/upcoming" _ "limit=5"). }
  assert (J : forall c, secret_attached (reminders R) c -> attached_for (Jwt.APPS R) c).
  { intros c H. exists "reminders", (reminders R). split; [now left | exact H]. }
  assert (C : forall c, secret_attached (reminders R) c -> attached_for (Cookie.APPS R) c).
  { intros c H. exists "reminders", (reminders R). split; [now left | exact H]. }
  destruct (create_well_behaved R req net t0) as (? & wc & Ec & _ & Fc).
  destruct (complete_well_behaved R req net t0) as (? & wt & Et & _ & Ft).
  destruct (list_reminders_well_behaved R req net t0) as (? & wl & El & _ & Fl).
  unfold Jwt.create, Jwt.complete, Cookie.create, Cookie.complete.
  rewrite Ec, Et, El. cbn [snd].
  split; splits.
  - destruct (jwt_overview_run R net t0)
      as (r & s & w & newr & news & E & Cs & _ & Fr & Fs & _).
    rewrite E. cbn [snd]. rewrite Cs. apply Forall_app. split.
    + eapply Forall_impl; [|exact Fr]. intros c H. apply J, Rem, H.
    + eapply Forall_impl; [|exact Fs]. intros c H.
      exists "seminars", (Jwt.seminars R). split; [cbn; auto | apply Sem, H].
  - eapply Forall_impl; [exact J | exact Fc].
  - eapply Forall_impl; [exact J | exact Ft].
  - destruct (cookie_overview_run R net t0) as (r & w & E & _ & Fr & _).
    rewrite E. cbn [snd]. eapply Forall_impl; [|exact Fr]. intros c H. apply C, Rem, H.
  - eapply Forall_impl; [exact C | exact Fl].
  - eapply Forall_impl; [exact C | exact Fc].
  - eapply Forall_impl; [exact C | exact Ft].
Qed.

(** C7, as the code has it.  No handler lets an upstream failure escape: it
    always replies.  When an upstream call of a proxy endpoint met a network
    failure or returned a body that is not JSON, the reply is a 500 with the
    endpoint's generic message.  The status of the upstream response is not
    looked at: the create endpoint passes on any JSON body with a 200,
    whatever status came with it. *)
Theorem proxy_endpoints_catch_upstream_failures
        (R : Runtime) (req : Req) (net : Network) (t0 : Z) :
  ((exists reply, fst (run (Jwt.overview R) net t0) = Ok reply) /\
   (exists reply, fst (run (Cookie.overview R) net t0) = Ok reply)) /\
  (exists reply,
      fst (run (Jwt.create R req) net t0) = Ok reply /\
      (existsb failed (calls (snd (run (Jwt.create R req) net t0))) = true ->
       reply = SendJson 500 (JObj [("error", JStr "Failed to create reminder")]))) /\
  (exists reply,
      fst (run (Jwt.complete R req) net t0) = Ok reply /\
      (existsb failed (calls (snd (run (Jwt.complete R req) net t0))) = true ->
       reply = SendJson 500 (JObj [("error", JStr "Failed to update reminder")]))) /\
  (exists reply,
      fst (run (Cookie.create R req) net t0) = Ok reply /\
      (existsb failed (calls (snd (run (Cookie.create R req) net t0))) = true ->
       reply = SendJson 500 (JObj [("error", JStr "Failed to create reminder")]))) /\
  (exists reply,
      fst (run (Cookie.complete R req) net t0) = Ok reply /\
      (existsb failed (calls (snd (run (Cookie.complete R req) net t0))) = true ->
       reply = SendJson 500 (JObj [("error", JStr "Failed to update reminder")]))) /\
  (exists reply,
      fst (run (Cookie.list_reminders R req) net t0) = Ok reply /\
      (existsb failed (calls (snd (run (Cookie.list_reminders R req) net t0))) = true ->
       reply = SendJson 500 (JObj [("error", JStr "Failed to fetch reminders")]))) /\
  (forall members c r data,
      req_body req = Some (JObj members) ->
      In c (calls (snd (run (Jwt.create R req) net t0))) ->
      snd c = Responded r -> payload r = Some data ->
      fst (run (Jwt.create R req) net t0) = Ok (SendJson 200 data)).
Proof.
  destruct (create_well_behaved R req net t0) as (rc & wc & Ec & Gc & _).
  destruct (complete_well_behaved R req net t0) as (rt & wt & Et & Gt & _).
  destruct (list_reminders_well_behaved R req net t0) as (rl & wl & El & Gl & _).
  destruct (jwt_overview_run R net t0) as (? & ? & ? & ? & ? & Ej & _).
  destruct (cookie_overview_run R net t0) as (? & ? & Ek & _).
  unfold Jwt.complete, Cookie.create, Cookie.complete.
  split; [rewrite Ej, Ek; cbn [fst]; eauto|].
  splits.
  1-5: unfold Jwt.create; rewrite ?Ec, ?Et, ?El; cbn [fst snd]; eauto.
  intros members c r data B. unfold Jwt.create.
  rewrite (create_run (reminders R) req net t0 _ B). cbn [fst snd calls].
  intros [<-|[]]. cbn [snd]. intros -> ->. reflexivity.
Qed.

(** ** The gate *)

Lemma append_not_empty (a : string) (c : ascii) (b : string) :
  a ++ String c b <> EmptyString.
Proof. destruct a; discriminate. Qed.

Lemma append_assoc (a b c : string) : (a ++ b) ++ c = a ++ b ++ c.
Proof. induction a as [|x a IH]; simpl; [reflexivity | now rewrite IH]. Qed.


Lemma eqb_not_empty (t : string) : t <> EmptyString -> String.eqb t EmptyString = false.
Proof. intro H. now apply String.eqb_neq. Qed.




(** ** Counterexamples to the claims that the code does not meet *)


(** C6 fails for the calls that carry a body: the creation call has no
    query at all. *)
Lemma creation_call_has_no_secret_in_query :
  ~ Forall (secret_as_query_parameter (reminders R0))
      (calls (snd (run (Jwt.create R0 buy_milk) (net_const 200 (JObj [])) 0))).
Proof.
  intro H.
  assert (E : exists c rest,
             calls (snd (run (Jwt.create R0 buy_milk) (net_const 200 (JObj [])) 0))
             = c :: rest /\
             target (fst c) = "https://reminders-app.fly.dev/api/external/reminder")
    by (do 2 eexists; split; vm_compute; reflexivity).
  destruct E as (c & rest & E & T). rewrite E in H.
  apply Forall_inv in H. destruct H as [H _].
  apply secret_in_query_has_mark in H. rewrite T in H. discriminate H.
Qed.

(** C7 fails for a status outside 200..299: the create endpoint passes the
    body of a 503 on with a 200. *)
Lemma non_2xx_is_passed_on :
  ~ upstream_failure_gives_500 (Jwt.create R0 buy_milk).
Proof.
  intro H.
  destruct (H (net_const 503 (JObj [("error", JStr "down")])) 0)
    as (r & E & code & content & -> & B).
  - eexists. split; [left; vm_compute; reflexivity|].
    right. eexists. split; reflexivity.
  - vm_compute in E. injection E as <- _. lia.
Qed.

(** ** The theorems at work on concrete requests *)

(** C1 at work: seminars is down, reminders answers.  The seminars slot is
    the error marker, the reminders slot is a valid summary. *)
Lemma overview_with_seminars_down :
  exists r c s,
    fst (run (Jwt.overview R0) (net_seminars_down (listing [item (JStr "r1") false])) 0)
      = Ok (SendJson 200
              (JObj [("apps", JObj [("reminders", r); ("classquizzes", c);
                                    ("seminars", s)]);
                     ("timestamp", JNum 0)])) /\
    s = error_marker /\
    summary_for (reminders R0) r.
Proof.
  destruct (overview_isolates_backend_failures
              R0 (net_seminars_down (listing [item (JStr "r1") false])) 0)
    as ((r & c & s & E & _ & Sr & _ & Ss) & _ & (V & _) & _).
  exists r, c, s. split; [exact E|]. split.
  - apply Ss. vm_compute. reflexivity.
  - destruct Sr as [_ Sr].
    destruct Sr as (rq1 & rq2 & r1 & r2 & d1 & d2 & Cs & P1 & P2 & Er);
      [vm_compute; reflexivity|].
    vm_compute in Cs. injection Cs as <- <- <- <-.
    cbn in P1, P2. injection P1 as <-. injection P2 as <-.
    apply (V (listing [item (JStr "r1") false]) (listing [item (JStr "r1") false])).
    rewrite Er. vm_compute. reflexivity.
Defined.


(** C3 at work: the second item of the list is the one asked for, and it is
    not completed yet. *)
Lemma toggle_second_item :
  exists o,
    calls (snd (run (Jwt.complete R0 (toggle "r1"))
                    (net_const 200 (listing [item (JStr "r0") true;
                                             item (JStr "r1") false])) 0))
    = [(GET "https://reminders-app.fly.dev/api/external/reminders?secret=assistant-secret-key",
        Responded {| status := 200;
                     payload := Some (listing [item (JStr "r0") true;
                                               item (JStr "r1") false]) |});
       ({| target := "https://reminders-app.fly.dev/api/external/bulk";
           method := "POST";
           headers := [("Content-Type", "application/json")];
           body := Some (JObj [("secret", JStr "assistant-secret-key");
                               ("action", JStr "complete");
                               ("ids", JArr [JStr "r1"])]) |}, o)].
Proof.
  refine (proj1 (toggle_requests_inverse_action
                   R0 (toggle "r1")
                   (net_const 200 (listing [item (JStr "r0") true; item (JStr "r1") false]))
                   0 _ _ [item (JStr "r0") true] [] (item (JStr "r1") false) false
                   eq_refl eq_refl eq_refl _ _ eq_refl)).
  - constructor; [|constructor]. split; [discriminate|].
    intros (m & E & H). injection E as <-. discriminate H.
  - eexists. split; reflexivity.
Defined.

(** C5 at work: the example of the specification. *)
Lemma create_buy_milk :
  fst (run (Jwt.create R0 buy_milk) (net_const 201 (JObj [("id", JStr "r7")])) 0)
    = Ok (SendJson 200 (JObj [("id", JStr "r7")])) /\
  calls (snd (run (Jwt.create R0 buy_milk) (net_const 201 (JObj [("id", JStr "r7")])) 0))
    = [({| target := "https://reminders-app.fly.dev/api/external/reminder";
           method := "POST";
           headers := [("Content-Type", "application/json")];
           body := Some (JObj [("secret", JStr "assistant-secret-key");
                               ("title", JStr "Buy milk");
                               ("notes", JStr EmptyString);
                               ("priority", JStr "normal")]) |},
        Responded {| status := 201; payload := Some (JObj [("id", JStr "r7")]) |})].
Proof.
  destruct (create_fills_defaults
              R0 buy_milk (net_const 201 (JObj [("id", JStr "r7")])) 0
              (JStr "Buy milk") eq_refl) as ((Cs & Reply) & _).
  split; [|exact Cs].
  exact (Reply _ _ eq_refl eq_refl).
Defined.

(** C7 at work: a backend that answers 503 with a JSON body. *)
Lemma create_with_backend_answering_503 :
  fst (run (Jwt.create R0 buy_milk) (net_const 503 (JObj [("error", JStr "down")])) 0)
    = Ok (SendJson 200 (JObj [("error", JStr "down")])).
Proof.
  destruct (proxy_endpoints_catch_upstream_failures
              R0 buy_milk (net_const 503 (JObj [("error", JStr "down")])) 0)
    as (_ & _ & _ & _ & _ & _ & Pass).
  eapply (Pass [("title", JStr "Buy milk")]);
    [reflexivity | left; reflexivity | reflexivity | reflexivity].
Defined.

(** C10 at work: the item has the number 5 as its id and the request asks
    for "5". *)
Lemma toggle_numeric_id :
  fst (run (Jwt.complete R0 (toggle "5")) (net_const 200 (listing [item (JNum 5) false])) 0)
    = Ok (SendJson 404 (JObj [("error", JStr "Reminder not found")])) /\
  calls (snd (run (Jwt.complete R0 (toggle "5"))
                  (net_const 200 (listing [item (JNum 5) false])) 0))
    = [(GET (Reminders.list_url (reminders R0)),
        Responded {| status := 200; payload := Some (listing [item (JNum 5) false]) |})].
Proof.
  refine (proj1 (proj2 (non_string_ids_never_match
                          R0 (toggle "5") (net_const 200 (listing [item (JNum 5) false]))
                          0 _ _ [item (JNum 5) false] eq_refl eq_refl eq_refl _))).
  constructor; [|constructor]. eexists. split; [reflexivity|].
  intros s H. discriminate H.
Defined.

(** * Further properties of the code *)

(** ** The gate of the JWT variant *)

(** X1.  [checkAuth] verifies the credential locally: whatever the request,
    it makes no upstream call, does not write to the console and takes no
    time on the network. *)
Theorem jwt_gate_is_local (R : Runtime) (req : Req) (net : Network) (w : World) :
  snd (Jwt.checkAuth R req net w) = w.
Proof.
  unfold Jwt.checkAuth. destruct (Jwt.token req) as [t|]; [|reflexivity].
  destruct (String.eqb t EmptyString); [reflexivity|].
  unfold try_catch, bind.
  destruct (jwt_verify R t (Jwt.JWT_SECRET R)); reflexivity.
Qed.

(** X2.  [checkAuth] calls [next()] exactly when a non-empty token is
    presented and [jwt.verify] accepts it under the configured secret; the
    request then carries the decoded payload as [req.user] and the token as
    [req.token]. *)
Theorem jwt_gate_admits_only_verified
        (R : Runtime) (req : Req) (net : Network) (w : World) (u : Value) (t : string) :
  fst (Jwt.checkAuth R req net w) = Ok (Next u t) <->
  Jwt.token req = Some t /\ t <> EmptyString /\
  exists decoded, jwt_verify R t (Jwt.JWT_SECRET R) = Some decoded /\ u = Some decoded.
Proof.
  unfold Jwt.checkAuth. split.
  - destruct (Jwt.token req) as [t'|]; [|discriminate].
    destruct (String.eqb t' EmptyString) eqn:E; [discriminate|].
    apply String.eqb_neq in E.
    unfold try_catch, bind.
    destruct (jwt_verify R t' (Jwt.JWT_SECRET R)) as [decoded|] eqn:V;
      unfold ret, throw; cbn [fst]; [|discriminate].
    intros [= <- <-]. eauto.
  - intros (T & NE & decoded & V & ->). rewrite T, (eqb_not_empty t NE).
    unfold try_catch, bind. rewrite V. reflexivity.
Qed.

Lemma substring_all (s : string) : substring 0 (String.length s) s = s.
Proof. induction s as [|c s IH]; simpl; [reflexivity | now rewrite IH]. Qed.

Lemma replace_first_at_head (pat rep s : string) :
  String.prefix pat s = true ->
  replace_first pat rep s
  = rep ++ substring (String.length pat) (String.length s - String.length pat) s.
Proof. destruct s; cbn [replace_first]; intros ->; reflexivity. Qed.

Lemma strip_bearer (t : string) :
  replace_first "Bearer " EmptyString ("Bearer " ++ t) = t.
Proof.
  rewrite replace_first_at_head by (simpl; now destruct t).
  change (substring 0 (String.length t - 0) t = t).
  rewrite Nat.sub_0_r. apply substring_all.
Qed.

(** X3.  Where the token is read from.  A non-empty [token] query parameter
    (JWT variant) or session cookie (cookie variant) is the token, whatever
    the [Authorization] header says; without it, the header
    [Bearer <t>] gives the token [t]. *)
Theorem token_sources (req : Req) (t : string) :
  (query req "token" = Some t -> t <> EmptyString -> Jwt.token req = Some t) /\
  (cookies req "auth_session" = Some t -> t <> EmptyString ->
   Cookie.token req = Some t) /\
  (authorization req = Some ("Bearer " ++ t) ->
   (absent (query req "token") -> Jwt.token req = Some t) /\
   (absent (cookies req "auth_session") -> Cookie.token req = Some t)).
Proof.
  unfold Jwt.token, Cookie.token, Cookie.COOKIE_NAME, str_or. splits.
  - intros -> NE. now rewrite (eqb_not_empty t NE).
  - intros -> NE. now rewrite (eqb_not_empty t NE).
  - intros ->. cbn [option_map]. rewrite strip_bearer.
    split; intros [-> | ->]; reflexivity.
Qed.

(** ** The gate of the cookie variant *)

(** X4.  [requireAuth] makes no upstream call for a request without a
    credential.  With a credential [t] it makes exactly one call, a GET of
    the identity provider's [/api/verify] carrying [t] in the
    [Authorization] header, and it calls [next()] exactly when that call
    answers with a status in 200..299 and a JSON body other than [null]; the
    [user] member of the body then becomes [req.user]. *)
Theorem cookie_gate_admits_only_verified
        (R : Runtime) (req : Req) (net : Network) (t0 : Z) :
  (absent (Cookie.token req) ->
   snd (run (Cookie.requireAuth R req) net t0) = start t0) /\
  (forall t,
      Cookie.token req = Some t -> t <> EmptyString ->
      let verify := {| target := Cookie.AUTH_SERVICE R ++ "/api/verify";
                       method := "GET";
                       headers := [("Authorization", "Bearer " ++ t)];
                       body := None |} in
      calls (snd (run (Cookie.requireAuth R req) net t0))
        = [(verify, fst (net [] verify))] /\
      forall u t',
        fst (run (Cookie.requireAuth R req) net t0) = Ok (Next u t') <->
        t' = t /\
        exists r data,
          fst (net [] verify) = Responded r /\ ok r = true /\
          payload r = Some data /\ data <> JNull /\ get (Some data) "user" = Ok u).
Proof.
  split.
  - intros [E|E]; unfold Cookie.requireAuth, run; rewrite E; reflexivity.
  - intros t T NE verify. unfold Cookie.requireAuth, run.
    rewrite T, (eqb_not_empty t NE).
    unfold try_catch, bind. rewrite fetch_step. cbn [start calls clock console List.app].
    change (Cookie.verify_request R t) with verify.
    destruct (fst (net [] verify)) as [|r] eqn:O.
    + split; [destruct (startsWith (path req) "/api/"); reflexivity|].
      intros u t'. split.
      * destruct (startsWith (path req) "/api/"); discriminate.
      * intros (_ & r & data & D & _). discriminate D.
    + destruct (ok r) eqn:K; cbn [negb]; unfold throw, ret.
      * unfold json. destruct (payload r) as [data|] eqn:P; unfold throw, ret, lift.
        -- destruct (get (Some data) "user") as [user|e] eqn:G.
           ++ split; [reflexivity|]. intros u t'. cbn [fst]. split.
              ** intros [= <- <-]. split; [reflexivity|].
                 exists r, data. splits; auto. intros ->. discriminate G.
              ** intros (-> & r' & data' & [= <-] & _ & P' & _ & G').
                 rewrite P in P'. injection P' as <-. rewrite G in G'.
                 now injection G' as <-.
           ++ split; [destruct (startsWith (path req) "/api/"); reflexivity|].
              intros u t'. split.
              ** destruct (startsWith (path req) "/api/"); discriminate.
              ** intros (_ & r' & data' & [= <-] & _ & P' & _ & G').
                 rewrite P in P'. injection P' as <-. rewrite G in G'. discriminate G'.
        -- split; [destruct (startsWith (path req) "/api/"); reflexivity|].
           intros u t'. split.
           ** destruct (startsWith (path req) "/api/"); discriminate.
           ** intros (_ & r' & data' & [= <-] & _ & P' & _). rewrite P in P'.
              discriminate P'.
      * split; [destruct (startsWith (path req) "/api/"); reflexivity|].
        intros u t'. split.
        -- destruct (startsWith (path req) "/api/"); discriminate.
        -- intros (_ & r' & data' & [= <-] & K' & _). rewrite K in K'. discriminate K'.
Qed.

(** ** The return URL *)

Lemma hex_digit_inert (c : ascii) :
  uri_inert (hex_digit (N_of_ascii c / 16)) /\ uri_inert (hex_digit (N_of_ascii c mod 16)).
Proof.
  destruct c as [[] [] [] [] [] [] [] []]; split; left; vm_compute; reflexivity.
Qed.

Lemma encode_inert (s : string) : Forall uri_inert (chars (encodeURIComponent s)).
Proof.
  induction s as [|c s IH]; [constructor|].
  cbn [encodeURIComponent]. destruct (uri_unreserved c) eqn:U.
  - constructor; [now left | exact IH].
  - destruct (hex_digit_inert c) as [H1 H2].
    constructor; [now right|]. constructor; [exact H1|]. constructor; [exact H2 | exact IH].
Qed.

(** X5.  Whenever [checkAuth] answers instead of calling [next()], the
    answer is a 302 redirect to the login endpoint with one query parameter,
    [returnTo], whose value is made of unreserved characters and percent
    escapes only: no [&], [=], [?], [#] or [/] of the requested URL reaches the
    location unescaped. *)
Theorem jwt_gate_redirect_is_escaped
        (R : Runtime) (req : Req) (net : Network) (w : World) (r : Reply) :
  fst (Jwt.checkAuth R req net w) = Ok (Answer r) ->
  exists back,
    r = SendRedirect 302 ("https://inacio-auth.fly.dev/login?returnTo=" ++ back) /\
    Forall uri_inert (chars back) /\
    (forall c, In c ["&"; "="; "?"; "#"; "/"]%char -> ~ In c (chars back)).
Proof.
  assert (Clean : forall u,
             exists back,
               Jwt.login_redirect u
               = SendRedirect 302 ("https://inacio-auth.fly.dev/login?returnTo=" ++ back) /\
               Forall uri_inert (chars back) /\
               (forall c, In c ["&"; "="; "?"; "#"; "/"]%char -> ~ In c (chars back))).
  { intro u. exists (encodeURIComponent u). unfold Jwt.login_redirect, res_redirect.
    pose proof (encode_inert u) as I. revert I.
    generalize (encodeURIComponent u) as back. intros back I.
    split; [reflexivity|]. split; [exact I|].
    intros c Hc Hin. rewrite Forall_forall in I. specialize (I c Hin).
    cbn [In] in Hc.
    destruct Hc as [<-|[<-|[<-|[<-|[<-|[]]]]]]; destruct I as [I|I]; discriminate I. }
  unfold Jwt.checkAuth. destruct (Jwt.token req) as [t|].
  - destruct (String.eqb t EmptyString).
    + unfold ret. cbn [fst]. intros [= <-]. apply Clean.
    + unfold try_catch, bind.
      destruct (jwt_verify R t (Jwt.JWT_SECRET R)); unfold ret, throw; cbn [fst].
      * discriminate.
      * intros [= <-]. apply Clean.
  - unfold ret. cbn [fst]. intros [= <-]. apply Clean.
Qed.

Lemma hex_digit_code (n : N) :
  (n < 16)%N -> N_of_ascii (hex_digit n) = (if (n <? 10)%N then 48 + n else 55 + n)%N.
Proof.
  intro H. unfold hex_digit. apply N_ascii_embedding.
  destruct (n <? 10)%N eqn:E; [apply N.ltb_lt in E|]; lia.
Qed.

Lemma hex_digit_inj (n m : N) :
  (n < 16)%N -> (m < 16)%N -> hex_digit n = hex_digit m -> n = m.
Proof.
  intros Hn Hm E. apply (f_equal N_of_ascii) in E.
  rewrite !hex_digit_code in E by assumption.
  destruct (n <? 10)%N eqn:A; destruct (m <? 10)%N eqn:B;
    try apply N.ltb_lt in A; try apply N.ltb_lt in B;
    try apply N.ltb_ge in A; try apply N.ltb_ge in B; lia.
Qed.

Lemma escape_inj (c d : ascii) :
  hex_digit (N_of_ascii c / 16) = hex_digit (N_of_ascii d / 16) ->
  hex_digit (N_of_ascii c mod 16) = hex_digit (N_of_ascii d mod 16) ->
  c = d.
Proof.
  intros Hi Lo.
  pose proof (N_ascii_bounded c) as Bc. pose proof (N_ascii_bounded d) as Bd.
  apply hex_digit_inj in Hi;
    [|apply N.Div0.div_lt_upper_bound; lia|apply N.Div0.div_lt_upper_bound; lia].
  apply hex_digit_inj in Lo; [|apply N.mod_lt; lia|apply N.mod_lt; lia].
  rewrite <- (ascii_N_embedding c), <- (ascii_N_embedding d). f_equal.
  rewrite (N.div_mod (N_of_ascii c) 16), (N.div_mod (N_of_ascii d) 16) by lia.
  now rewrite Hi, Lo.
Qed.

Lemma encode_inj (a b : string) :
  encodeURIComponent a = encodeURIComponent b -> a = b.
Proof.
  revert b. induction a as [|c a IH]; intros [|d b]; cbn [encodeURIComponent].
  - reflexivity.
  - destruct (uri_unreserved d); discriminate.
  - destruct (uri_unreserved c); discriminate.
  - destruct (uri_unreserved c) eqn:Uc; destruct (uri_unreserved d) eqn:Ud.
    + intros [= -> E]. f_equal. now apply IH.
    + intros [= -> _]. discriminate Uc.
    + intros [= <- _]. discriminate Ud.
    + intros [= Hi Lo E]. f_equal; [now apply escape_inj | now apply IH].
Qed.

(** The login redirect determines the URL to return to: two different
    URLs never give the same redirect, so the identity provider can always
    recover where the user came from. *)
Lemma login_redirect_determines_return_url (u1 u2 : string) :
  Jwt.login_redirect u1 = Jwt.login_redirect u2 <-> u1 = u2.
Proof.
  split; [|now intros ->].
  unfold Jwt.login_redirect, res_redirect. intros [= E].
  now apply encode_inj.
Qed.

(** X6.  Two requests without a credential are redirected to the same
    location only when they ask for the same URL: the redirect of the gate
    determines the URL to return to. *)
Theorem jwt_gate_redirect_determines_return_url
        (R : Runtime) (req1 req2 : Req) (net : Network) (w : World) :
  absent (Jwt.token req1) -> absent (Jwt.token req2) ->
  (fst (Jwt.checkAuth R req1 net w) = fst (Jwt.checkAuth R req2 net w) <->
   protocol req1 ++ "://" ++ show (host req1) ++ originalUrl req1
   = protocol req2 ++ "://" ++ show (host req2) ++ originalUrl req2).
Proof.
  intros A1 A2.
  assert (E : forall req, absent (Jwt.token req) ->
                          fst (Jwt.checkAuth R req net w)
                          = Ok (Answer (Jwt.login_redirect
                                          (protocol req ++ "://" ++ show (host req)
                                             ++ originalUrl req)))).
  { intros req [T|T]; unfold Jwt.checkAuth; rewrite T; reflexivity. }
  rewrite (E req1 A1), (E req2 A2). split.
  - intro H. apply login_redirect_determines_return_url. congruence.
  - now intros ->.
Qed.

(** ** The proxy endpoints, further *)

(** X7.  Whatever the JSON object sent by the client, the creation call
    carries exactly the members the handler picks: the server's own secret,
    the title as given (left out when the client gave none), and the notes
    and priority as given, [null] included, with the defaults only when they
    are missing.  No other member of the client's body is forwarded, and a
    [secret] supplied by the client is ignored. *)
Theorem create_forwards_only_known_members
        (R : Runtime) (req : Req) (net : Network) (t0 : Z)
        (members : list (string * JSON)) :
  req_body req = Some (JObj members) ->
  exists sent o,
    calls (snd (run (Jwt.create R req) net t0))
      = [({| target := "https://reminders-app.fly.dev/api/external/reminder";
             method := "POST";
             headers := [("Content-Type", "application/json")];
             body := Some (JObj sent) |}, o)] /\
    lookup "secret" sent
      = Some (JStr (env_or R "REMINDERS_API_SECRET" "assistant-secret-key")) /\
    lookup "title" sent = lookup "title" members /\
    (forall v, lookup "notes" members = Some v -> lookup "notes" sent = Some v) /\
    (lookup "notes" members = undefined ->
     lookup "notes" sent = Some (JStr EmptyString)) /\
    (forall v, lookup "priority" members = Some v -> lookup "priority" sent = Some v) /\
    (lookup "priority" members = undefined ->
     lookup "priority" sent = Some (JStr "normal")) /\
    (forall k, In k (map fst sent) -> In k ["secret"; "title"; "notes"; "priority"]).
Proof.
  intro B. unfold Jwt.create.
  rewrite (create_run (reminders R) req net t0 _ B). cbn [snd calls].
  do 2 eexists. split; [reflexivity|].
  destruct (lookup "title" members) as [title|];
    destruct (lookup "notes" members) as [notes|];
    destruct (lookup "priority" members) as [priority|];
    cbn [object_of option_map apiSecret reminders with_default lookup String.eqb
         Ascii.eqb Bool.eqb map fst];
    splits; try reflexivity; try discriminate;
    try (intros v [= <-]; reflexivity);
    intros k Hk; cbn [In] in *; intuition auto.
Qed.

(** X8.  A create request whose body is missing or [null] is answered with
    the generic 500 and no upstream call is made. *)
Theorem create_without_body_calls_nothing
        (R : Runtime) (req : Req) (net : Network) (t0 : Z) :
  req_body req = undefined \/ req_body req = Some JNull ->
  fst (run (Jwt.create R req) net t0)
    = Ok (SendJson 500 (JObj [("error", JStr "Failed to create reminder")])) /\
  calls (snd (run (Jwt.create R req) net t0)) = [].
Proof.
  intros [B|B]; unfold Jwt.create, run, Reminders.create, try_catch, bind, lift;
    rewrite B; split; reflexivity.
Qed.

Lemma find_id_sound (id : string) (items : list JSON) (x : JSON) :
  find_id items id = Ok (Some x) -> In x items /\ has_id id x.
Proof.
  induction items as [|y items IH]; cbn [find_id]; [discriminate|].
  destruct (get (Some y) "id") as [v|] eqn:G; cbn [rbind]; [|discriminate].
  destruct (strict_eq_string v id) eqn:E.
  - intros [= <-]. split; [now left | eapply strict_eq_has_id; eauto].
  - intro H. destruct (IH H). split; [now right | assumption].
Qed.

Lemma opt_find_id_sound (id : string) (found : Value) (x : JSON) :
  opt_find_id found id = Ok (Some x) ->
  exists items, found = Some (JArr items) /\ In x items /\ has_id id x.
Proof.
  destruct found as [[| | | |items|]|]; cbn [opt_find_id]; try discriminate.
  intro H. exists items. split; [reflexivity | now apply find_id_sound].
Qed.

(** Every run of the toggle endpoint: either the list fetch is the only call
    and the reply is the 404 or the generic 500, or the list was fetched, an
    item with the id was located in it, and the bulk call for that item
    followed. *)
Lemma complete_outcomes (backend : App) (req : Req) (net : Network) (t0 : Z) :
  let id := params req "id" in
  let c1 := GET (Reminders.list_url backend) in
  (exists o1 reply,
      run (Reminders.complete backend req) net t0
      = (Ok reply, {| calls := [(c1, o1)];
                      clock := t0 + Z.of_N (snd (net [] c1));
                      console := [] |}) /\
      (reply = generic_failure "Failed to update reminder" \/
       reply = SendJson 404 (JObj [("error", JStr "Reminder not found")]))) \/
  (exists r1 data found members,
      fst (net [] c1) = Responded r1 /\ payload r1 = Some data /\
      get (Some data) "reminders" = Ok found /\
      opt_find_id found id = Ok (Some (JObj members)) /\
      let c2 := Reminders.POST (Reminders.bulk_url backend)
                  (JObj (object_of
                           [("secret", option_map JStr (apiSecret backend));
                            ("action", Some (JStr (Reminders.action_for
                                                     (lookup "completed" members))));
                            ("ids", Some (JArr [JStr id]))])) in
      let o2 := fst (net [(c1, Responded r1)] c2) in
      run (Reminders.complete backend req) net t0
      = (Ok (match o2 with
             | NetworkError => generic_failure "Failed to update reminder"
             | Responded r2 =>
                 match payload r2 with
                 | Some result => res_json result
                 | None => generic_failure "Failed to update reminder"
                 end
             end),
         {| calls := [(c1, Responded r1); (c2, o2)];
            clock := t0 + Z.of_N (snd (net [] c1))
                     + Z.of_N (snd (net [(c1, Responded r1)] c2));
            console := [] |})).
Proof.
  intros id c1.
  destruct (fst (net [] c1)) as [|r1] eqn:O1.
  { left. exists NetworkError. eexists. split; [|left; reflexivity].
    unfold run, Reminders.complete, try_catch, bind. rewrite fetch_step.
    fold c1. cbn [start calls clock console List.app]. rewrite O1. reflexivity. }
  assert (Stop : forall reply,
             (forall w, (let (r, w') :=
                           (data <- json r1 ;;
                            found <- lift (get (Some data) "reminders") ;;
                            reminder <- lift (opt_find_id found id) ;;
                            if negb (truthy reminder)
                            then ret (SendJson 404 (JObj [("error", JStr "Reminder not found")]))
                            else
                              completed <- lift (get reminder "completed") ;;
                              response <- fetch (Reminders.POST (Reminders.bulk_url backend)
                                                   (JObj (object_of
                                                            [("secret", option_map JStr (apiSecret backend));
                                                             ("action", Some (JStr (Reminders.action_for completed)));
                                                             ("ids", Some (JArr [JStr id]))]))) ;;
                              result <- json response ;;
                              ret (res_json result)) net w in
                         match r with
                         | Ok a => (Ok a, w')
                         | Throw _ => (Ok (generic_failure "Failed to update reminder"), w')
                         end) = (Ok reply, w)) ->
             run (Reminders.complete backend req) net t0
             = (Ok reply, {| calls := [(c1, Responded r1)];
                             clock := t0 + Z.of_N (snd (net [] c1));
                             console := [] |})).
  { intros reply H.
    unfold run, Reminders.complete, try_catch. unfold bind at 1. rewrite fetch_step.
    fold c1. cbn [start calls clock console List.app]. rewrite O1.
    fold id. apply H. }
  destruct (payload r1) as [data|] eqn:P.
  2:{ left. exists (Responded r1). eexists. split; [|left; reflexivity].
      apply Stop. intro w. unfold bind, json. rewrite P. reflexivity. }
  destruct (get (Some data) "reminders") as [found|] eqn:G.
  2:{ left. exists (Responded r1). eexists. split; [|left; reflexivity].
      apply Stop. intro w. unfold bind, json, lift. rewrite P. cbn [ret].
      rewrite G. reflexivity. }
  destruct (opt_find_id found id) as [[x|]|] eqn:F.
  - destruct (opt_find_id_sound _ _ _ F) as (items & _ & _ & members & -> & _).
    right. exists r1, data, found, members. splits; auto.
    apply (complete_found backend req net t0 r1 data found O1 P G members F).
  - left. exists (Responded r1). eexists. split; [|right; reflexivity].
    apply (complete_not_found backend req net t0 r1 data found O1 P G F).
  - left. exists (Responded r1). eexists. split; [|left; reflexivity].
    apply Stop. intro w. unfold bind, json, lift. rewrite P. cbn [ret].
    rewrite G, F. reflexivity.
Qed.

Lemma complete_throws (backend : App) (req : Req) (net : Network) (t0 : Z)
      (r1 : Response) (data : JSON) :
  let c1 := GET (Reminders.list_url backend) in
  fst (net [] c1) = Responded r1 ->
  payload r1 = Some data ->
  (exists e, get (Some data) "reminders" = Throw e) \/
  (exists found e, get (Some data) "reminders" = Ok found /\
                   opt_find_id found (params req "id") = Throw e) ->
  run (Reminders.complete backend req) net t0
  = (Ok (generic_failure "Failed to update reminder"),
     {| calls := [(c1, Responded r1)];
        clock := t0 + Z.of_N (snd (net [] c1));
        console := [] |}).
Proof.
  intros c1 O1 P H.
  unfold run, Reminders.complete, try_catch, bind. rewrite fetch_step.
  fold c1. cbn [start calls clock console List.app]. rewrite O1.
  unfold json. rewrite P. cbn [ret lift].
  destruct H as [(e & G)|(found & e & G & F)]; rewrite G; [reflexivity|].
  rewrite F. reflexivity.
Qed.

Lemma find_id_null (id : string) (pre post : list JSON) :
  Forall (fun x => x <> JNull /\ ~ has_id id x) pre ->
  find_id (pre ++ JNull :: post) id = Throw TypeError.
Proof.
  induction 1 as [|x pre [NN NH] _ IH]; cbn [find_id List.app]; [reflexivity|].
  destruct (get_not_null x "id" NN) as [v G]. rewrite G. cbn [rbind].
  destruct (strict_eq_string v id) eqn:E; [|exact IH].
  elim NH. eapply strict_eq_has_id; eauto.
Qed.

(** X9.  The toggle endpoint writes only for an item that the backend
    listed.  It makes at most two calls; a call with a body is made only
    after the list fetch returned an object whose [reminders] array holds an
    item with the requested id, and that call is the bulk call for this one
    id. *)
Theorem toggle_writes_only_for_listed_items
        (R : Runtime) (req : Req) (net : Network) (t0 : Z) :
  let id := params req "id" in
  let fetch_list := GET (Reminders.list_url (reminders R)) in
  (length (calls (snd (run (Jwt.complete R req) net t0))) <= 2)%nat /\
  forall c content,
    In c (calls (snd (run (Jwt.complete R req) net t0))) ->
    body (fst c) = Some content ->
    (exists r1 members items x,
        fst (net [] fetch_list) = Responded r1 /\
        payload r1 = Some (JObj members) /\
        lookup "reminders" members = Some (JArr items) /\
        In x items /\ has_id id x) /\
    target (fst c) = "https://reminders-app.fly.dev/api/external/bulk" /\
    exists action,
      content = JObj [("secret", JStr (env_or R "REMINDERS_API_SECRET"
                                         "assistant-secret-key"));
                      ("action", JStr action);
                      ("ids", JArr [JStr id])].
Proof.
  intros id fetch_list. unfold Jwt.complete.
  destruct (complete_outcomes (reminders R) req net t0)
    as [(o1 & reply & Run & _)|(r1 & data & found & mx & O1 & P & G & F & Run)];
    cbn zeta in Run; rewrite Run; cbn [snd calls length].
  - split; [lia|]. intros c content [<-|[]]. discriminate.
  - split; [lia|]. intros c content [<-|[<-|[]]]; [discriminate|].
    cbn [fst body Reminders.POST target]. intros [= <-].
    destruct (opt_find_id_sound _ _ _ F) as (items & -> & Hin & Hid).
    assert (exists members, data = JObj members /\
                            lookup "reminders" members = Some (JArr items))
      as (members & -> & L).
    { destruct data; cbn [get] in G; try discriminate G.
      injection G as G. eauto. }
    splits.
    + exists r1, members, items, (JObj mx). splits; auto.
    + reflexivity.
    + eexists. reflexivity.
Qed.

(** X10.  When the bulk call answers with a JSON body, the toggle endpoint
    returns that body unchanged with a 200, whatever the status of the
    backend's response; when the bulk call fails, it returns the generic
    500. *)
Theorem toggle_returns_bulk_result
        (R : Runtime) (req : Req) (net : Network) (t0 : Z) (c1 c2 : Call) :
  calls (snd (run (Jwt.complete R req) net t0)) = [c1; c2] ->
  (forall r2 result,
      snd c2 = Responded r2 -> payload r2 = Some result ->
      fst (run (Jwt.complete R req) net t0) = Ok (SendJson 200 result)) /\
  (failed c2 = true ->
   fst (run (Jwt.complete R req) net t0)
   = Ok (SendJson 500 (JObj [("error", JStr "Failed to update reminder")]))).
Proof.
  unfold Jwt.complete.
  destruct (complete_outcomes (reminders R) req net t0)
    as [(o1 & reply & Run & _)|(r1 & data & found & mx & O1 & P & G & F & Run)];
    cbn zeta in Run; rewrite Run; cbn [fst snd calls]; [discriminate|].
  match goal with
  | |- context [fst (net ?h ?c)] => generalize (fst (net h c)); intro o2
  end.
  intros [= _ <-]. cbn [snd]. split.
  - intros r2 result -> ->. reflexivity.
  - unfold failed. cbn [snd].
    destruct o2 as [|[st [d|]]]; cbn [payload]; try discriminate; reflexivity.
Qed.

(** X11.  The toggle endpoint answers with the generic 500, after the list
    fetch alone, when the fetched body is [null] or when its [reminders]
    member is neither nullish nor an array. *)
Theorem toggle_on_malformed_list
        (R : Runtime) (req : Req) (net : Network) (t0 : Z)
        (r1 : Response) (data : JSON) :
  let fetch_list := GET (Reminders.list_url (reminders R)) in
  fst (net [] fetch_list) = Responded r1 ->
  payload r1 = Some data ->
  data = JNull \/
  (exists members v, data = JObj members /\ lookup "reminders" members = Some v /\
                     not_a_list v) ->
  fst (run (Jwt.complete R req) net t0)
    = Ok (SendJson 500 (JObj [("error", JStr "Failed to update reminder")])) /\
  calls (snd (run (Jwt.complete R req) net t0)) = [(fetch_list, Responded r1)].
Proof.
  intros fetch_list O1 P H. unfold Jwt.complete.
  rewrite (complete_throws (reminders R) req net t0 r1 data O1 P); [auto|].
  destruct H as [->|(members & v & -> & L & NN & NA)].
  - left. eexists. reflexivity.
  - right. exists (Some v), TypeError. cbn [get]. split; [now rewrite L|].
    destruct v; cbn [opt_find_id]; try reflexivity; [now elim NN | now elim (NA items)].
Qed.

(** X12.  A [null] entry in the list ahead of any item with the requested
    id makes the toggle endpoint fail with the generic 500, without a bulk
    call, even when the item asked for comes later in the list. *)
Theorem toggle_fails_on_null_entry
        (R : Runtime) (req : Req) (net : Network) (t0 : Z)
        (r1 : Response) (members : list (string * JSON)) (pre post : list JSON) :
  let id := params req "id" in
  let fetch_list := GET (Reminders.list_url (reminders R)) in
  fst (net [] fetch_list) = Responded r1 ->
  payload r1 = Some (JObj members) ->
  lookup "reminders" members = Some (JArr (pre ++ JNull :: post)) ->
  Forall (fun x => x <> JNull /\ ~ has_id id x) pre ->
  fst (run (Jwt.complete R req) net t0)
    = Ok (SendJson 500 (JObj [("error", JStr "Failed to update reminder")])) /\
  calls (snd (run (Jwt.complete R req) net t0)) = [(fetch_list, Responded r1)].
Proof.
  intros id fetch_list O1 P L H. unfold Jwt.complete.
  rewrite (complete_throws (reminders R) req net t0 r1 _ O1 P); [auto|].
  right. exists (Some (JArr (pre ++ JNull :: post))), TypeError.
  cbn [get opt_find_id]. split; [now rewrite L | now apply find_id_null].
Qed.

(** ** The overview, further *)

Ltac close_trace :=
  cbn [console_error ret lift bind throw];
  do 4 eexists; split; [reflexivity|];
  cbn [calls console];
  split; [rewrite <- ?app_assoc; reflexivity|];
  split; [first [reflexivity | symmetry; apply app_nil_r]|];
  split; [cbn [map fst]; solve [left; reflexivity | right; reflexivity]|].

Lemma reminders_block_trace R backend ov net w :
  exists slot w' new lines,
    Reminders.block R backend ov net w = (Ok (set_app ov "reminders" slot), w') /\
    calls w' = (calls w ++ new)%list /\
    console w' = (console w ++ lines)%list /\
    fetched_in_turn (Reminders.today_url backend) (Reminders.stats_url backend)
                    (map fst new) /\
    logged_for (Reminders.summary R) "Failed to fetch reminders:" slot lines.
Proof.
  unfold Reminders.block, Reminders.attempt, try_catch, bind.
  step_fetch; [close_trace; right; auto| |close_trace; right; auto].
  step_fetch; [close_trace; right; auto| |close_trace; right; auto].
  destruct (Reminders.summary R j j0) as [s|e] eqn:Sh; close_trace.
  - left. eauto.
  - right. auto.
Qed.

Lemma seminars_block_trace R ov net w :
  exists slot w' new lines,
    Jwt.seminars_block R ov net w = (Ok (set_app ov "seminars" slot), w') /\
    calls w' = (calls w ++ new)%list /\
    console w' = (console w ++ lines)%list /\
    fetched_in_turn (Jwt.seminars_stats_url (Jwt.seminars R))
                    (Jwt.seminars_upcoming_url (Jwt.seminars R)) (map fst new) /\
    logged_for (Jwt.seminars_summary R) "Failed to fetch seminars:" slot lines.
Proof.
  unfold Jwt.seminars_block, Jwt.seminars_attempt, try_catch, bind.
  step_fetch; [close_trace; right; auto| |close_trace; right; auto].
  step_fetch; [close_trace; right; auto| |close_trace; right; auto].
  destruct (Jwt.seminars_summary R j j0) as [s|e] eqn:Sh; close_trace.
  - left. eauto.
  - right. auto.
Qed.

Lemma jwt_overview_trace R net t0 :
  exists r s w newr news lr ls,
    run (Jwt.overview R) net t0 =
      (Ok (SendJson 200
             (JObj [("apps", JObj [("reminders", r);
                                   ("classquizzes", Jwt.classquizzes_summary);
                                   ("seminars", s)]);
                    ("timestamp", JNum t0)])), w) /\
    calls w = (newr ++ news)%list /\
    console w = (lr ++ ls)%list /\
    fetched_in_turn (Reminders.today_url (reminders R))
                    (Reminders.stats_url (reminders R)) (map fst newr) /\
    fetched_in_turn (Jwt.seminars_stats_url (Jwt.seminars R))
                    (Jwt.seminars_upcoming_url (Jwt.seminars R)) (map fst news) /\
    logged_for (Reminders.summary R) "Failed to fetch reminders:" r lr /\
    logged_for (Jwt.seminars_summary R) "Failed to fetch seminars:" s ls.
Proof.
  unfold run, Jwt.overview.
  unfold bind at 1. cbn [Date_now start clock].
  set (ov0 := {| apps := []; timestamp := t0 |}).
  set (w0 := {| calls := []; clock := t0; console := [] |}).
  destruct (reminders_block_trace R (reminders R) ov0 net w0)
    as (r & w1 & newr & lr & E1 & C1 & L1 & F1 & G1).
  rewrite (bind_ok _ _ _ _ _ _ E1).
  rewrite (bind_ok _ _ _ _ _ _ (classquizzes_block_run _ net w1)).
  destruct (seminars_block_trace R
              (set_app (set_app ov0 "reminders" r) "classquizzes" Jwt.classquizzes_summary)
              net w1) as (s & w2 & news & ls & E2 & C2 & L2 & F2 & G2).
  rewrite (bind_ok _ _ _ _ _ _ E2).
  exists r, s, w2, newr, news, lr, ls.
  split; [reflexivity|].
  split; [rewrite C2, C1; reflexivity|].
  split; [rewrite L2, L1; reflexivity|].
  auto.
Qed.

Lemma cookie_overview_trace R net t0 :
  exists r w lr,
    run (Cookie.overview R) net t0 =
      (Ok (SendJson 200 (JObj [("apps", JObj [("reminders", r)]);
                               ("timestamp", JNum t0)])), w) /\
    console w = lr /\
    fetched_in_turn (Reminders.today_url (reminders R))
                    (Reminders.stats_url (reminders R)) (map fst (calls w)) /\
    logged_for (Reminders.summary R) "Failed to fetch reminders:" r lr.
Proof.
  unfold run, Cookie.overview.
  unfold bind at 1. cbn [Date_now start clock].
  set (ov0 := {| apps := []; timestamp := t0 |}).
  set (w0 := {| calls := []; clock := t0; console := [] |}).
  destruct (reminders_block_trace R (reminders R) ov0 net w0)
    as (r & w1 & newr & lr & E1 & C1 & L1 & F1 & G1).
  rewrite (bind_ok _ _ _ _ _ _ E1).
  exists r, w1, lr. subst w0. cbn [calls console List.app] in C1, L1. rewrite C1.
  splits; auto.
Qed.

Lemma get_sent (d : JSON) (k : string) (v : Value) :
  get (Some d) k = Ok v -> v = sent d k.
Proof. destruct d; cbn [get sent]; intros [= <-]; reflexivity. Qed.

Lemma opt_get_sent_in (d : JSON) (outer k : string) (v : Value) :
  opt_get (sent d outer) k = Ok v -> v = sent_in d outer k.
Proof.
  unfold sent_in. destruct (sent d outer) as [inner|]; [|now intros [= <-]].
  destruct inner; cbn [opt_get get sent]; intros [= <-]; reflexivity.
Qed.

Lemma shown_or_else (x : Value) : shown_as x (Some (or_else x (JNum 0))).
Proof.
  unfold shown_as, or_else. destruct x as [j|]; [|now right].
  destruct (truthy (Some j)); [now left | now right].
Qed.

(** X13.  A summary always has the same members in the same order.  Its
    display members are the literals of the handler, and each count is the
    value that the backend sent for it when that value is truthy, and the
    number 0 otherwise (also when the backend sent none, or sent no [stats]
    object at all). *)
Theorem summaries_have_a_fixed_shape (R : Runtime) (d1 d2 s : JSON) :
  (Reminders.summary R d1 d2 = Ok s ->
   exists members,
     s = JObj members /\ map fst members = reminders_summary_keys /\
     (lookup "name" members = Some (JStr "Reminders") /\
      lookup "icon" members = Some (JStr "✅") /\
      lookup "color" members = Some (JStr "#007AFF")) /\
     shown_as (sent d1 "count") (lookup "todayCount" members) /\
     shown_as (sent_in d2 "stats" "total") (lookup "total" members) /\
     shown_as (sent_in d2 "stats" "incomplete") (lookup "incomplete" members) /\
     shown_as (sent_in d2 "stats" "overdue") (lookup "overdue" members) /\
     shown_as (sent_in d2 "stats" "highPriority") (lookup "highPriority" members) /\
     exists preview, lookup "items" members = Some preview) /\
  (Jwt.seminars_summary R d1 d2 = Ok s ->
   exists members,
     s = JObj members /\ map fst members = seminars_summary_keys /\
     (lookup "name" members = Some (JStr "Seminars") /\
      lookup "icon" members = Some (JStr "🎓") /\
      lookup "color" members = Some (JStr "#FF9500")) /\
     shown_as (sent d1 "upcoming_seminars") (lookup "upcomingCount" members) /\
     shown_as (sent d1 "total_speakers") (lookup "totalSpeakers" members) /\
     shown_as (sent d1 "pending_tasks") (lookup "pendingTasks" members) /\
     exists preview, lookup "items" members = Some preview).
Proof.
  split.
  - unfold Reminders.summary. intro H.
    apply rbind_ok in H. destruct H as (count & Gc & H).
    apply rbind_ok in H. destruct H as (s1 & G1 & H).
    apply rbind_ok in H. destruct H as (total & Gt & H).
    apply rbind_ok in H. destruct H as (s2 & G2 & H).
    apply rbind_ok in H. destruct H as (incomplete & Gi & H).
    apply rbind_ok in H. destruct H as (s3 & G3 & H).
    apply rbind_ok in H. destruct H as (overdue & Go & H).
    apply rbind_ok in H. destruct H as (s4 & G4 & H).
    apply rbind_ok in H. destruct H as (high & Gh & H).
    apply rbind_ok in H. destruct H as (lst & Gl & H).
    apply rbind_ok in H. destruct H as (top & Gp & H).
    injection H as <-.
    apply get_sent in Gc, G1, G2, G3, G4. subst count s1 s2 s3 s4.
    apply opt_get_sent_in in Gt, Gi, Go, Gh. subst total incomplete overdue high.
    eexists. split; [reflexivity|]. split; [reflexivity|].
    split; [splits; reflexivity|].
    cbn [lookup String.eqb Ascii.eqb Bool.eqb].
    splits; try apply shown_or_else. eexists. reflexivity.
  - unfold Jwt.seminars_summary. intro H.
    apply rbind_ok in H. destruct H as (upcoming & Gu & H).
    apply rbind_ok in H. destruct H as (speakers & Gs & H).
    apply rbind_ok in H. destruct H as (pending & Gp & H).
    apply rbind_ok in H. destruct H as (lst & Gl & H).
    apply rbind_ok in H. destruct H as (top & Gt & H).
    injection H as <-.
    apply get_sent in Gu, Gs, Gp. subst upcoming speakers pending.
    eexists. split; [reflexivity|]. split; [reflexivity|].
    split; [splits; reflexivity|].
    cbn [lookup String.eqb Ascii.eqb Bool.eqb].
    splits; try apply shown_or_else. eexists. reflexivity.
Qed.

(** X14.  The preview of a summary is the first five items of the list that
    the backend returned, in the backend's order: it never has more than
    five items; and it is the empty list when the backend returned no list
    or [null]. *)
Theorem preview_is_capped_at_five
        (R : Runtime) (m1 m2 : list (string * JSON)) :
  (forall preview,
      (exists items, lookup "reminders" m1 = Some (JArr items) /\
                     preview = firstn 5 items) \/
      ((lookup "reminders" m1 = undefined \/ lookup "reminders" m1 = Some JNull) /\
       preview = []) ->
      exists members,
        Reminders.summary R (JObj m1) (JObj m2) = Ok (JObj members) /\
        lookup "items" members = Some (JArr preview) /\ (length preview <= 5)%nat) /\
  (forall preview,
      (exists items, lookup "seminars" m2 = Some (JArr items) /\
                     preview = firstn 5 items) \/
      ((lookup "seminars" m2 = undefined \/ lookup "seminars" m2 = Some JNull) /\
       preview = []) ->
      exists members,
        Jwt.seminars_summary R (JObj m1) (JObj m2) = Ok (JObj members) /\
        lookup "items" members = Some (JArr preview) /\ (length preview <= 5)%nat).
Proof.
  split; intros preview H.
  - unfold Reminders.summary. cbn [get rbind].
    destruct (opt_get_total (lookup "stats" m2) "total") as [a ->].
    destruct (opt_get_total (lookup "stats" m2) "incomplete") as [b ->].
    destruct (opt_get_total (lookup "stats" m2) "overdue") as [c ->].
    destruct (opt_get_total (lookup "stats" m2) "highPriority") as [d ->].
    cbn [rbind].
    destruct H as [(items & -> & ->)|([-> | ->] & ->)]; cbn [opt_slice5 rbind];
      eexists; (split; [reflexivity|]); (split; [reflexivity|]);
      [apply firstn_le_length | cbn; lia | cbn; lia].
  - unfold Jwt.seminars_summary. cbn [get rbind].
    destruct H as [(items & -> & ->)|([-> | ->] & ->)]; cbn [opt_slice5 rbind];
      eexists; (split; [reflexivity|]); (split; [reflexivity|]);
      [apply firstn_le_length | cbn; lia | cbn; lia].
Qed.


Lemma summary_is_not_error_marker (backend : App) (s : JSON) :
  summary_for backend s -> s <> error_marker.
Proof. intros (members & -> & N & _) [= ->]. discriminate N. Qed.

Lemma logged_iff_error (backend : App) shape line slot lines :
  (forall d1 d2 s, shape d1 d2 = Ok s -> summary_for backend s) ->
  logged_for shape line slot lines ->
  (lines = [line] /\ slot = error_marker) \/
  (lines = [] /\ slot <> error_marker /\ summary_for backend slot).
Proof.
  intros V [(-> & d1 & d2 & S)|[-> ->]]; [right | left; auto].
  pose proof (V _ _ _ S) as Hs. splits; auto.
  now apply (summary_is_not_error_marker backend).
Qed.

(** X16.  Every failure of the overview is logged, and nothing else is: the
    console receives the line of a backend exactly when the slot of that
    backend is the error marker, and a slot that is not the error marker is
    a summary of its backend.  The line of classquizzes is never written. *)
Theorem overview_logs_each_failed_backend
        (R : Runtime) (net : Network) (t0 : Z) :
  (exists r c s,
      let log := console (snd (run (Jwt.overview R) net t0)) in
      fst (run (Jwt.overview R) net t0)
        = Ok (SendJson 200
                (JObj [("apps", JObj [("reminders", r); ("classquizzes", c);
                                      ("seminars", s)]);
                       ("timestamp", JNum t0)])) /\
      (In "Failed to fetch reminders:" log <-> r = error_marker) /\
      (In "Failed to fetch seminars:" log <-> s = error_marker) /\
      ~ In "Failed to fetch quizzes:" log /\
      (r <> error_marker -> summary_for (reminders R) r) /\
      (s <> error_marker -> summary_for (Jwt.seminars R) s)) /\
  (exists r,
      let log := console (snd (run (Cookie.overview R) net t0)) in
      fst (run (Cookie.overview R) net t0)
        = Ok (SendJson 200 (JObj [("apps", JObj [("reminders", r)]);
                                  ("timestamp", JNum t0)])) /\
      (In "Failed to fetch reminders:" log <-> r = error_marker) /\
      (r <> error_marker -> summary_for (reminders R) r)).
Proof.
  split.
  - destruct (jwt_overview_trace R net t0)
      as (r & s & w & newr & news & lr & ls & E & _ & L & _ & _ & Gr & Gs).
    apply (logged_iff_error (reminders R)) in Gr;
      [|apply reminders_summary_valid].
    apply (logged_iff_error (Jwt.seminars R)) in Gs;
      [|apply seminars_summary_valid].
    exists r, Jwt.classquizzes_summary, s. rewrite E. cbn [fst snd]. rewrite L.
    split; [reflexivity|].
    destruct Gr as [[-> ->]|(-> & Nr & Sr)]; destruct Gs as [[-> ->]|(-> & Ns & Ss)];
      cbn [List.app In]; splits; try tauto;
      try (split; [tauto | intros _; auto]);
      try (split; [intros [H|[H|[]]]; (discriminate H || reflexivity) | auto]);
      try (split; [intros [H|[]]; (discriminate H || reflexivity) | auto]);
      try (split; [intros [H|[]]; discriminate H | intro; tauto]);
      try (intros [H|[H|[]]]; discriminate H);
      try (intros [H|[]]; discriminate H);
      try (intro N; now elim N).
  - destruct (cookie_overview_trace R net t0) as (r & w & lr & E & L & _ & Gr).
    apply (logged_iff_error (reminders R)) in Gr;
      [|apply reminders_summary_valid].
    exists r. rewrite E. cbn [fst snd]. rewrite L.
    split; [reflexivity|].
    destruct Gr as [[-> ->]|(-> & Nr & Sr)]; cbn [In]; splits; tauto.
Qed.

(** ** The list endpoint of the cookie variant *)

(** X18.  The list endpoint makes one call, the GET of the filtered list,
    and returns the JSON body of the answer unchanged with a 200, whatever
    the status of the answer. *)
Theorem list_endpoint_passes_the_answer_on
        (R : Runtime) (req : Req) (net : Network) (t0 : Z)
        (r : Response) (data : JSON) :
  fst (net [] (GET (Cookie.list_url R req))) = Responded r ->
  payload r = Some data ->
  fst (run (Cookie.list_reminders R req) net t0) = Ok (SendJson 200 data) /\
  calls (snd (run (Cookie.list_reminders R req) net t0))
    = [(GET (Cookie.list_url R req), Responded r)].
Proof.
  intros O P. unfold run, Cookie.list_reminders, try_catch, bind.
  rewrite fetch_step. cbn [start calls clock console List.app]. rewrite O.
  unfold json. rewrite P. split; reflexivity.
Qed.

Lemma occurrences_append (c : ascii) (a b : string) :
  occurrences c (a ++ b) = (occurrences c a + occurrences c b)%nat.
Proof.
  unfold occurrences, chars. induction a as [|x a IH]; [reflexivity|].
  cbn [append list_ascii_of_string count_occ].
  destruct (ascii_dec x c); rewrite IH; reflexivity.
Qed.

Lemma occurrences_inert (c : ascii) (s : string) :
  ~ uri_inert c -> Forall uri_inert (chars s) -> occurrences c s = 0%nat.
Proof.
  intros N H. unfold occurrences. apply count_occ_not_In.
  intro Hin. rewrite Forall_forall in H. exact (N (H c Hin)).
Qed.

Lemma occurrences_encoded (c : ascii) (s : string) :
  c = "&"%char \/ c = "="%char -> occurrences c (encodeURIComponent s) = 0%nat.
Proof.
  intro H. apply occurrences_inert; [|apply encode_inert].
  destruct H as [-> | ->]; intros [U|U]; discriminate U.
Qed.

Lemma occurrences_filter (c : ascii) (x : option string) (opening : string) :
  c = "&"%char \/ c = "="%char ->
  occurrences c opening = 1%nat ->
  occurrences c (Cookie.when_truthy x (opening ++ encodeURIComponent (show x)))
  = present x.
Proof.
  intros H K. unfold Cookie.when_truthy, present.
  destruct x as [s|]; [|reflexivity].
  destruct (String.eqb s EmptyString); [reflexivity|].
  now rewrite occurrences_append, K, (occurrences_encoded c _ H).
Qed.

(** X19.  How the list endpoint builds its URL.  The filters follow the
    secret in a fixed order; [folder], [tag] and [search] are escaped and
    [today] is reduced to [true], so each filter that is present adds exactly
    one [&] and one [=] to the URL; [completed] is appended as it comes,
    even when empty, so whatever [&] and [=] it contains reach the backend's
    query string. *)
Theorem list_url_escapes_all_but_completed (R : Runtime) (req : Req) (c : ascii) :
  c = "&"%char \/ c = "="%char ->
  exists suffix,
    Cookie.list_url R req
    = "https://reminders-app.fly.dev/api/external/reminders?secret="
        ++ env_or R "REMINDERS_API_SECRET" "assistant-secret-key" ++ suffix /\
    occurrences c suffix
    = (present (query req "folder")
       + match query req "completed" with
         | Some raw => 1 + occurrences c raw
         | None => 0
         end
       + present (query req "today")
       + present (query req "tag")
       + present (query req "search"))%nat.
Proof.
  intro H. unfold Cookie.list_url. cbv zeta.
  match goal with
  | |- exists _, _ ++ ?rest = _ /\ _ => exists rest
  end.
  split.
  - unfold Reminders.list_url, reminders, url, apiSecret, show.
    rewrite (append_assoc "https://reminders-app.fly.dev"
               "/api/external/reminders?secret=").
    rewrite append_assoc. reflexivity.
  - rewrite !occurrences_append.
    rewrite (occurrences_filter c (query req "folder") "&folder=" H)
      by (destruct H as [-> | ->]; reflexivity).
    rewrite (occurrences_filter c (query req "tag") "&tag=" H)
      by (destruct H as [-> | ->]; reflexivity).
    rewrite (occurrences_filter c (query req "search") "&search=" H)
      by (destruct H as [-> | ->]; reflexivity).
    assert (T : occurrences c (Cookie.when_truthy (query req "today") "&today=true")
                = present (query req "today")).
    { unfold Cookie.when_truthy, present. destruct (query req "today") as [s|];
        [|reflexivity].
      destruct (String.eqb s EmptyString); destruct H as [-> | ->]; reflexivity. }
    rewrite T.
    assert (C : occurrences c match query req "completed" with
                              | Some raw => "&completed=" ++ raw
                              | None => EmptyString
                              end
                = match query req "completed" with
                  | Some raw => (1 + occurrences c raw)%nat
                  | None => 0%nat
                  end).
    { destruct (query req "completed") as [raw|]; [|reflexivity].
      rewrite occurrences_append. destruct H as [-> | ->]; reflexivity. }
    rewrite C. lia.
Qed.

(** ** The further properties at work *)

Lemma bearer_good_is_the_token :
  Jwt.token (with_bearer "good") = Some "good" /\
  Cookie.token (with_bearer "good") = Some "good".
Proof.
  destruct (token_sources (with_bearer "good") "good") as (_ & _ & H).
  destruct (H eq_refl) as [J C].
  split; [apply J | apply C]; left; reflexivity.
Defined.

Lemma expired_cookie_is_verified_once :
  calls (snd (run (Cookie.requireAuth R0 (page_with_cookie "expired")) net_down 0))
  = [({| target := "https://inacio-auth.fly.dev/api/verify";
         method := "GET";
         headers := [("Authorization", "Bearer expired")];
         body := None |}, NetworkError)].
Proof.
  refine (proj1 (proj2 (cookie_gate_admits_only_verified
                          R0 (page_with_cookie "expired") net_down 0)
                       "expired" eq_refl _)).
  discriminate.
Defined.

Lemma overview_redirect_is_escaped :
  exists back,
    SendRedirect 302
      "https://inacio-auth.fly.dev/login?returnTo=https%3A%2F%2Finacio-dashboard.fly.dev%2Fapi%2Foverview"
    = SendRedirect 302 ("https://inacio-auth.fly.dev/login?returnTo=" ++ back) /\
    Forall uri_inert (chars back) /\
    (forall c, In c ["&"; "="; "?"; "#"; "/"]%char -> ~ In c (chars back)).
Proof.
  apply (jwt_gate_redirect_is_escaped R0 overview_request net_down (start 0)).
  vm_compute. reflexivity.
Defined.

Lemma redirects_of_two_requests :
  fst (Jwt.checkAuth R0 overview_request net_down (start 0))
  = fst (Jwt.checkAuth R0 buy_milk net_down (start 0)) <->
  protocol overview_request ++ "://" ++ show (host overview_request)
    ++ originalUrl overview_request
  = protocol buy_milk ++ "://" ++ show (host buy_milk) ++ originalUrl buy_milk.
Proof.
  apply (jwt_gate_redirect_determines_return_url
           R0 overview_request buy_milk net_down (start 0));
    left; reflexivity.
Defined.

Lemma client_secret_is_ignored :
  exists sent o,
    calls (snd (run (Jwt.create R0
                       (request "/api/reminders" "/reminders" EmptyString
                          (Some (JObj [("secret", JStr "stolen");
                                       ("title", JStr "Buy milk");
                                       ("notes", JNull)]))))
                    net_down 0))
    = [({| target := "https://reminders-app.fly.dev/api/external/reminder";
           method := "POST";
           headers := [("Content-Type", "application/json")];
           body := Some (JObj sent) |}, o)] /\
    lookup "secret" sent = Some (JStr "assistant-secret-key") /\
    lookup "notes" sent = Some JNull.
Proof.
  destruct (create_forwards_only_known_members
              R0 (request "/api/reminders" "/reminders" EmptyString
                    (Some (JObj [("secret", JStr "stolen");
                                 ("title", JStr "Buy milk");
                                 ("notes", JNull)])))
              net_down 0 _ eq_refl) as (sent & o & C & S & _ & N & _).
  exists sent, o. split; [exact C|]. split; [exact S|]. apply N. reflexivity.
Defined.

Lemma create_with_no_body :
  fst (run (Jwt.create R0 (request "/api/reminders" "/reminders" EmptyString undefined))
           net_down 0)
    = Ok (SendJson 500 (JObj [("error", JStr "Failed to create reminder")])) /\
  calls (snd (run (Jwt.create R0
                     (request "/api/reminders" "/reminders" EmptyString undefined))
                  net_down 0)) = [].
Proof.
  apply create_without_body_calls_nothing. left. reflexivity.
Defined.

Lemma bulk_call_means_listed_item :
  exists r1 members items x,
    fst (net_const 200 (listing [item (JStr "r1") false]) []
           (GET (Reminders.list_url (reminders R0)))) = Responded r1 /\
    payload r1 = Some (JObj members) /\
    lookup "reminders" members = Some (JArr items) /\
    In x items /\ has_id "r1" x.
Proof.
  destruct (toggle_writes_only_for_listed_items
              R0 (toggle "r1") (net_const 200 (listing [item (JStr "r1") false])) 0)
    as [_ H].
  eapply H; [vm_compute; right; left; reflexivity | reflexivity].
Defined.

Lemma toggle_passes_bulk_result_on :
  fst (run (Jwt.complete R0 (toggle "r1"))
           (net_const 207 (listing [item (JStr "r1") false])) 0)
  = Ok (SendJson 200 (listing [item (JStr "r1") false])).
Proof.
  assert (H : exists c1 c2,
             calls (snd (run (Jwt.complete R0 (toggle "r1"))
                             (net_const 207 (listing [item (JStr "r1") false])) 0))
             = [c1; c2] /\
             snd c2 = Responded {| status := 207;
                                   payload := Some (listing [item (JStr "r1") false]) |})
    by (do 2 eexists; split; vm_compute; reflexivity).
  destruct H as (c1 & c2 & H & O).
  exact (proj1 (toggle_returns_bulk_result
                  R0 (toggle "r1") (net_const 207 (listing [item (JStr "r1") false]))
                  0 c1 c2 H) _ _ O eq_refl).
Defined.

Lemma toggle_on_null_body :
  fst (run (Jwt.complete R0 (toggle "r1")) (net_const 200 JNull) 0)
    = Ok (SendJson 500 (JObj [("error", JStr "Failed to update reminder")])) /\
  calls (snd (run (Jwt.complete R0 (toggle "r1")) (net_const 200 JNull) 0))
    = [(GET (Reminders.list_url (reminders R0)),
        Responded {| status := 200; payload := Some JNull |})].
Proof.
  apply (toggle_on_malformed_list R0 (toggle "r1") (net_const 200 JNull) 0 _ JNull
           eq_refl eq_refl).
  left. reflexivity.
Defined.

Lemma toggle_behind_a_null_entry :
  fst (run (Jwt.complete R0 (toggle "r1"))
           (net_const 200 (listing [JNull; item (JStr "r1") false])) 0)
    = Ok (SendJson 500 (JObj [("error", JStr "Failed to update reminder")])) /\
  calls (snd (run (Jwt.complete R0 (toggle "r1"))
                  (net_const 200 (listing [JNull; item (JStr "r1") false])) 0))
    = [(GET (Reminders.list_url (reminders R0)),
        Responded {| status := 200;
                     payload := Some (listing [JNull; item (JStr "r1") false]) |})].
Proof.
  apply (toggle_fails_on_null_entry
           R0 (toggle "r1") (net_const 200 (listing [JNull; item (JStr "r1") false])) 0
           _ _ [] [item (JStr "r1") false] eq_refl eq_refl eq_refl).
  constructor.
Defined.

Lemma summary_of_a_listing :
  exists s members,
    Reminders.summary R0 (listing [item (JStr "r1") false])
                      (JObj [("stats", JObj [("total", JNum 7)])]) = Ok s /\
    s = JObj members /\ map fst members = reminders_summary_keys /\
    lookup "todayCount" members = Some (JNum 1) /\
    lookup "total" members = Some (JNum 7) /\
    lookup "overdue" members = Some (JNum 0).
Proof.
  assert (H : exists s, Reminders.summary R0 (listing [item (JStr "r1") false])
                          (JObj [("stats", JObj [("total", JNum 7)])])
                        = Ok s) by (eexists; vm_compute; reflexivity).
  destruct H as [s H].
  destruct (proj1 (summaries_have_a_fixed_shape R0 _ _ s) H)
    as (members & E & K & _ & C & T & _ & O & _).
  exists s, members. splits; auto.
  - destruct C as [[_ C]|[C _]]; [exact C | discriminate C].
  - destruct T as [[_ T]|[T _]]; [exact T | discriminate T].
  - destruct O as [[O _]|[_ O]]; [discriminate O | exact O].
Defined.

Lemma preview_of_six_items :
  exists members,
    Reminders.summary R0
      (JObj [("reminders", JArr [JNum 1; JNum 2; JNum 3; JNum 4; JNum 5; JNum 6])])
      (JObj []) = Ok (JObj members) /\
    lookup "items" members = Some (JArr [JNum 1; JNum 2; JNum 3; JNum 4; JNum 5]) /\
    (length [JNum 1; JNum 2; JNum 3; JNum 4; JNum 5] <= 5)%nat.
Proof.
  apply (proj1 (preview_is_capped_at_five
                  R0 [("reminders", JArr [JNum 1; JNum 2; JNum 3; JNum 4; JNum 5; JNum 6])]
                  [])).
  left. eexists. split; reflexivity.
Defined.

Lemma list_of_a_folder :
  fst (run (Cookie.list_reminders R0 (filtered (Some "Work") None))
           (net_const 200 (listing [])) 0)
    = Ok (SendJson 200 (listing [])) /\
  calls (snd (run (Cookie.list_reminders R0 (filtered (Some "Work") None))
                  (net_const 200 (listing [])) 0))
    = [(GET (Cookie.list_url R0 (filtered (Some "Work") None)),
        Responded {| status := 200; payload := Some (listing []) |})].
Proof.
  apply list_endpoint_passes_the_answer_on; reflexivity.
Defined.

Lemma ampersands_of_a_filtered_url :
  exists suffix,
    Cookie.list_url R0 (filtered (Some "a&b") (Some "x&y=1"))
    = "https://reminders-app.fly.dev/api/external/reminders?secret="
        ++ env_or R0 "REMINDERS_API_SECRET" "assistant-secret-key" ++ suffix /\
    occurrences "&" suffix
    = (present (query (filtered (Some "a&b") (Some "x&y=1")) "folder")
       + match query (filtered (Some "a&b") (Some "x&y=1")) "completed" with
         | Some raw => 1 + occurrences "&" raw
         | None => 0
         end
       + present (query (filtered (Some "a&b") (Some "x&y=1")) "today")
       + present (query (filtered (Some "a&b") (Some "x&y=1")) "tag")
       + present (query (filtered (Some "a&b") (Some "x&y=1")) "search"))%nat.
Proof.
  apply (list_url_escapes_all_but_completed R0 (filtered (Some "a&b") (Some "x&y=1"))).
  left. reflexivity.
Defined.

(** ** The toggle endpoint on an id that the list does not hold *)

(** C4, as the code has it.  Whenever no item with the requested id is in
    the fetched list, the toggle endpoint issues no bulk call: every
    upstream call it makes is a GET without body.  When moreover the list
    fetch returned a JSON object whose [reminders] member is missing, null,
    or an array of non-null entries, the reply is 404 with
    [{error: "Reminder not found"}] and the list fetch is the only upstream
    call.  Both files have the same handler. *)
Theorem toggle_unknown_id_is_404
        (R : Runtime) (req : Req) (net : Network) (t0 : Z) :
  let id := params req "id" in
  let fetch_list := GET ("https://reminders-app.fly.dev/api/external/reminders?secret="
                           ++ env_or R "REMINDERS_API_SECRET" "assistant-secret-key") in
  ((forall r1 members items x,
       fst (net [] fetch_list) = Responded r1 ->
       payload r1 = Some (JObj members) ->
       lookup "reminders" members = Some (JArr items) ->
       In x items -> ~ has_id id x) ->
   Forall (fun c => method (fst c) = "GET" /\ body (fst c) = None)
          (calls (snd (run (Jwt.complete R req) net t0))) /\
   Forall (fun c => method (fst c) = "GET" /\ body (fst c) = None)
          (calls (snd (run (Cookie.complete R req) net t0)))) /\
  (forall r1 members,
      fst (net [] fetch_list) = Responded r1 ->
      payload r1 = Some (JObj members) ->
      (lookup "reminders" members = undefined \/
       lookup "reminders" members = Some JNull \/
       exists items, lookup "reminders" members = Some (JArr items) /\
                     Forall (fun x => x <> JNull /\ ~ has_id id x) items) ->
      (fst (run (Jwt.complete R req) net t0)
         = Ok (SendJson 404 (JObj [("error", JStr "Reminder not found")])) /\
       calls (snd (run (Jwt.complete R req) net t0)) = [(fetch_list, Responded r1)]) /\
      (fst (run (Cookie.complete R req) net t0)
         = Ok (SendJson 404 (JObj [("error", JStr "Reminder not found")])) /\
       calls (snd (run (Cookie.complete R req) net t0)) = [(fetch_list, Responded r1)])).
Proof.
  intros id fetch_list. split.
  - intro None_listed. unfold Jwt.complete, Cookie.complete.
    destruct (complete_outcomes (reminders R) req net t0)
      as [(o1 & reply & Run & _)|(r1 & data & found & mx & O1 & P & G & F & Run)];
      cbn zeta in Run.
    + rewrite Run. cbn [snd calls]. split; repeat constructor.
    + exfalso.
      destruct (opt_find_id_sound _ _ _ F) as (items & -> & Hin & Hid).
      destruct data; cbn [get] in G; try discriminate G. injection G as G.
      exact (None_listed r1 members items (JObj mx) O1 P G Hin Hid).
  - intros r1 members A P L.
    exact (unknown_id_gives_404 R req net t0 r1 members A P L).
Qed.

(** C4 fails as stated: no item of the list [[null]] has the id asked for,
    yet reading the [id] of the null entry throws and the reply is the
    generic 500, not the 404. *)
Lemma null_entry_gives_500_not_404 :
  (forall x, In x [JNull] -> ~ has_id "r1" x) /\
  fst (run (Jwt.complete R0 (toggle "r1")) (net_const 200 (listing [JNull])) 0)
    = Ok (SendJson 500 (JObj [("error", JStr "Failed to update reminder")])) /\
  fst (run (Jwt.complete R0 (toggle "r1")) (net_const 200 (listing [JNull])) 0)
    <> Ok (SendJson 404 (JObj [("error", JStr "Reminder not found")])).
Proof.
  splits.
  - intros x [<-|[]] (m & E & _). discriminate E.
  - vm_compute. reflexivity.
  - vm_compute. discriminate.
Qed.

(** C4 at work: the id asked for is not in the list. *)
Lemma toggle_missing_item :
  fst (run (Jwt.complete R0 (toggle "r9"))
           (net_const 200 (listing [item (JStr "r0") true])) 0)
    = Ok (SendJson 404 (JObj [("error", JStr "Reminder not found")])) /\
  calls (snd (run (Jwt.complete R0 (toggle "r9"))
                  (net_const 200 (listing [item (JStr "r0") true])) 0))
    = [(GET "https://reminders-app.fly.dev/api/external/reminders?secret=assistant-secret-key",
        Responded {| status := 200;
                     payload := Some (listing [item (JStr "r0") true]) |})].
Proof.
  refine (proj1 (proj2 (toggle_unknown_id_is_404
                          R0 (toggle "r9")
                          (net_const 200 (listing [item (JStr "r0") true])) 0)
                       _ _ eq_refl eq_refl _)).
  right. right. eexists. split; [reflexivity|].
  constructor; [|constructor]. split; [discriminate|].
  intros (m & E & H). injection E as <-. discriminate H.
Defined.
